(** * Contact-management backend: shallow embedding and verified properties

    The development follows the layout of the Go program:
    - [strings], [strconv] and [regexp] helpers used by the program;
    - package [types]   : the records [Phone], [Contact], [CreateContactRequest], [CSVContact];
    - package [models]  : [Validate], [FormatPhoneNumbers] and their helpers;
    - the relational store behind GORM (tables, soft-delete scope, unique index, failing calls);
    - package [repository] : the [ContactRepository] interface and its GORM implementation;
    - package [handlers]   : the six HTTP handlers;
    - the properties of the specification, stated on these definitions. *)

From Stdlib Require Import List String Ascii Bool NArith Arith Lia.
Import ListNotations.
Open Scope string_scope.

(* ================================================================== *)
(** * Part I. Definitions *)
(* ================================================================== *)

(** ** Go strings are byte sequences: [string] of [ascii] (one [ascii] per byte). *)

Definition byte (c : ascii) : N := N_of_ascii c.

Definition inRange (lo hi c : ascii) : bool :=
  (byte lo <=? byte c)%N && (byte c <=? byte hi)%N.

Definition isDigit (c : ascii) : bool := inRange "0" "9" c.

Fixpoint rev_string (acc s : string) : string :=
  match s with
  | EmptyString => acc
  | String c r => rev_string (String c acc) r
  end.

Definition reverse (s : string) : string := rev_string EmptyString s.

(** *** package strings *)

(** [asciiSpace] of package strings: tab, line feed, vertical tab, form feed,
    carriage return, space. *)
Definition asciiSpace (c : ascii) : bool :=
  ((9 <=? byte c)%N && (byte c <=? 13)%N) || (byte c =? 32)%N.

(** UTF-8 encodings of the non-ASCII runes for which [unicode.IsSpace] holds:
    U+0085, U+00A0 (two bytes) and U+1680, U+2000..U+200A, U+2028, U+2029,
    U+202F, U+205F, U+3000 (three bytes). *)
Definition space2 (a b : ascii) : bool :=
  (byte a =? 194)%N && ((byte b =? 133)%N || (byte b =? 160)%N).

Definition space3 (a b c : ascii) : bool :=
  ((byte a =? 225)%N && (byte b =? 154)%N && (byte c =? 128)%N)
  || ((byte a =? 226)%N && (byte b =? 128)%N
      && (((128 <=? byte c)%N && (byte c <=? 138)%N)
          || (byte c =? 168)%N || (byte c =? 169)%N || (byte c =? 175)%N))
  || ((byte a =? 226)%N && (byte b =? 129)%N && (byte c =? 159)%N)
  || ((byte a =? 227)%N && (byte b =? 128)%N && (byte c =? 128)%N).

(** Drops the white-space runes at the head of [s]; [p2] and [p3] recognise the
    two- and three-byte encodings in the order the bytes are met. *)
Fixpoint trimRunes (p2 : ascii -> ascii -> bool) (p3 : ascii -> ascii -> ascii -> bool)
         (s : string) : string :=
  match s with
  | EmptyString => EmptyString
  | String a r1 =>
      if asciiSpace a then trimRunes p2 p3 r1
      else match r1 with
           | EmptyString => s
           | String b r2 =>
               if p2 a b then trimRunes p2 p3 r2
               else match r2 with
                    | EmptyString => s
                    | String c r3 => if p3 a b c then trimRunes p2 p3 r3 else s
                    end
           end
  end.

Definition TrimLeftSpace (s : string) : string := trimRunes space2 space3 s.

(** Trimming on the right decodes the last rune; on the reversed string the
    bytes of an encoding are met last byte first. *)
Definition TrimRightSpace (s : string) : string :=
  reverse (trimRunes (fun b a => space2 a b) (fun c b a => space3 a b c) (reverse s)).

(** [strings.TrimSpace] *)
Definition TrimSpace (s : string) : string := TrimRightSpace (TrimLeftSpace s).

(** [strings.HasSuffix] *)
Definition HasSuffix (s suffix : string) : bool :=
  (String.length suffix <=? String.length s)%nat
  && String.eqb (substring (String.length s - String.length suffix) (String.length suffix) s) suffix.

(** *** package strconv *)

Fixpoint parseDigits (s : string) (acc : N) : option N :=
  match s with
  | EmptyString => Some acc
  | String c r =>
      if isDigit c then parseDigits r (10 * acc + (byte c - 48))%N else None
  end.

(** [strconv.ParseUint(s, 10, 32)]: a non-empty string of decimal digits, no
    sign, whose value fits 32 bits; [None] stands for a non-nil error. *)
Definition ParseUint (s : string) : option N :=
  match s with
  | EmptyString => None
  | _ => match parseDigits s 0 with
         | Some n => if (n <? 2 ^ 32)%N then Some n else None
         | None => None
         end
  end.

(** *** package regexp: the fragment the program's patterns use *)

Inductive regex : Type :=
| Void
| Eps
| Class (ranges : list (ascii * ascii))
| Cat (r1 r2 : regex)
| Alt (r1 r2 : regex)
| Star (r : regex).

Definition inClass (ranges : list (ascii * ascii)) (c : ascii) : bool :=
  existsb (fun lh => inRange (fst lh) (snd lh) c) ranges.

Definition Lit (c : ascii) : regex := Class [(c, c)].
Definition Plus (r : regex) : regex := Cat r (Star r).

Fixpoint nullable (r : regex) : bool :=
  match r with
  | Void => false
  | Eps => true
  | Class _ => false
  | Cat r1 r2 => nullable r1 && nullable r2
  | Alt r1 r2 => nullable r1 || nullable r2
  | Star _ => true
  end.

Fixpoint deriv (c : ascii) (r : regex) : regex :=
  match r with
  | Void => Void
  | Eps => Void
  | Class rs => if inClass rs c then Eps else Void
  | Cat r1 r2 =>
      if nullable r1 then Alt (Cat (deriv c r1) r2) (deriv c r2)
      else Cat (deriv c r1) r2
  | Alt r1 r2 => Alt (deriv c r1) (deriv c r2)
  | Star r1 => Cat (deriv c r1) (Star r1)
  end.

(** [MatchString] for a pattern written [^r$]: the whole text must match [r]. *)
Fixpoint MatchString (r : regex) (s : string) : bool :=
  match s with
  | EmptyString => nullable r
  | String c rest => MatchString (deriv c r) rest
  end.

(** [ReplaceAllString(s, "")] for a pattern that is one character class:
    every byte of the class is deleted. *)
Fixpoint ReplaceAllString_empty (cls : ascii -> bool) (s : string) : string :=
  match s with
  | EmptyString => EmptyString
  | String c r =>
      if cls c then ReplaceAllString_empty cls r
      else String c (ReplaceAllString_empty cls r)
  end.

(** The class [\D]. *)
Definition nonDigit (c : ascii) : bool := negb (isDigit c).

(** ** Go errors *)

Inductive error : Type :=
| errors_New (msg : string)     (* errors.New(msg) *)
| ErrRecordNotFound             (* gorm.ErrRecordNotFound *)
| ErrEmptySlice                 (* gorm.ErrEmptySlice *)
| ErrUniqueViolation            (* the store rejects a duplicate key *)
| ErrDriver.                    (* any other failure of the store or its connection *)

Definition Error (e : error) : string :=
  match e with
  | errors_New msg => msg
  | ErrRecordNotFound => "record not found"
  | ErrEmptySlice => "empty slice found"
  | ErrUniqueViolation => "duplicate key value violates unique constraint"
  | ErrDriver => "driver: bad connection"
  end.

(** ** package types *)

Module Phone.
(** [gorm.Model] contributes [ID] and [DeletedAt]; the two time stamps
    [CreatedAt] and [UpdatedAt] play no part in the program's logic. *)
Record t : Type := mk {
  ID : N;
  DeletedAt : option N;
  ContactID : N;
  Number : string;
  Type_ : string
}.
Definition setID (x : N) (p : t) : t := mk x (DeletedAt p) (ContactID p) (Number p) (Type_ p).
Definition setContactID (x : N) (p : t) : t := mk (ID p) (DeletedAt p) x (Number p) (Type_ p).
Definition setNumber (x : string) (p : t) : t := mk (ID p) (DeletedAt p) (ContactID p) x (Type_ p).
End Phone.

Module Contact.
Record t : Type := mk {
  ID : N;
  DeletedAt : option N;
  FirstName : string;
  LastName : string;
  Email : string;
  PrimaryPhone : string;
  AdditionalPhones : list Phone.t
}.
Definition setID (x : N) (c : t) : t :=
  mk x (DeletedAt c) (FirstName c) (LastName c) (Email c) (PrimaryPhone c) (AdditionalPhones c).
Definition setFirstName (x : string) (c : t) : t :=
  mk (ID c) (DeletedAt c) x (LastName c) (Email c) (PrimaryPhone c) (AdditionalPhones c).
Definition setLastName (x : string) (c : t) : t :=
  mk (ID c) (DeletedAt c) (FirstName c) x (Email c) (PrimaryPhone c) (AdditionalPhones c).
Definition setEmail (x : string) (c : t) : t :=
  mk (ID c) (DeletedAt c) (FirstName c) (LastName c) x (PrimaryPhone c) (AdditionalPhones c).
Definition setPrimaryPhone (x : string) (c : t) : t :=
  mk (ID c) (DeletedAt c) (FirstName c) (LastName c) (Email c) x (AdditionalPhones c).
Definition setAdditionalPhones (x : list Phone.t) (c : t) : t :=
  mk (ID c) (DeletedAt c) (FirstName c) (LastName c) (Email c) (PrimaryPhone c) x.
End Contact.

Module CreateContactRequest.
Record t : Type := mk {
  FirstName : string;
  LastName : string;
  Email : string;
  PrimaryPhone : string;
  AdditionalPhones : list Phone.t
}.
End CreateContactRequest.

Module CSVContact.
Record t : Type := mk {
  FirstName : string;
  LastName : string;
  Email : string;
  PrimaryPhone : string
}.
End CSVContact.

(** ** package models *)

(** [^[a-zA-Z0-9._%+-]+@[a-zA-Z0-9.-]+\.[a-zA-Z]{2,}$] *)
Definition emailLocal : regex :=
  Class [("a", "z"); ("A", "Z"); ("0", "9"); (".", "."); ("_", "_"); ("%", "%");
         ("+", "+"); ("-", "-")]%char.
Definition emailDomain : regex :=
  Class [("a", "z"); ("A", "Z"); ("0", "9"); (".", "."); ("-", "-")]%char.
Definition emailAlpha : regex := Class [("a", "z"); ("A", "Z")]%char.

Definition emailPattern : regex :=
  Cat (Plus emailLocal)
      (Cat (Lit "@")
           (Cat (Plus emailDomain)
                (Cat (Lit ".") (Cat emailAlpha (Cat emailAlpha (Star emailAlpha)))))).

Definition isValidEmail (email : string) : bool := MatchString emailPattern email.

Definition isValidPhone (phone : string) : bool :=
  let cleaned := ReplaceAllString_empty nonDigit phone in
  (10 <=? String.length cleaned)%nat && (String.length cleaned <=? 15)%nat.

Definition formatPhoneNumber (phone : string) : string :=
  let cleaned := ReplaceAllString_empty nonDigit phone in
  cleaned.

(** The key under which [Validate] records an additional phone in [phoneSet]. *)
Definition phoneKey (phone : Phone.t) : string :=
  Phone.Number phone ++ "-" ++ Phone.Type_ phone.

(** The loop of [Validate] over the additional phones; [phoneSet] holds the
    keys met so far. *)
Fixpoint checkPhoneSet (phoneSet : list string) (phones : list Phone.t) : option error :=
  match phones with
  | [] => None
  | phone :: rest =>
      let key := phoneKey phone in
      if existsb (String.eqb key) phoneSet
      then Some (errors_New "duplicate phone numbers are not allowed")
      else checkPhoneSet (key :: phoneSet) rest
  end.

(** [Contact.Validate]; [None] is the nil error. *)
Definition Validate (c : Contact.t) : option error :=
  if String.eqb (TrimSpace (Contact.FirstName c)) "" then
    Some (errors_New "first name is required")
  else if String.eqb (TrimSpace (Contact.LastName c)) "" then
    Some (errors_New "last name is required")
  else if negb (isValidEmail (Contact.Email c)) then
    Some (errors_New "invalid email format")
  else if negb (isValidPhone (Contact.PrimaryPhone c)) then
    Some (errors_New "invalid primary phone format")
  else checkPhoneSet [] (Contact.AdditionalPhones c).

(** [Contact.FormatPhoneNumbers] *)
Definition FormatPhoneNumbers (c : Contact.t) : Contact.t :=
  let c := Contact.setPrimaryPhone (formatPhoneNumber (Contact.PrimaryPhone c)) c in
  Contact.setAdditionalPhones
    (map (fun p => Phone.setNumber (formatPhoneNumber (Phone.Number p)) p)
         (Contact.AdditionalPhones c)) c.


(** ** State passing *)

Inductive result (A : Type) : Type :=
| Ok (a : A)
| Err (err : error).
Arguments Ok {A} a.
Arguments Err {A} err.

Definition M (St A : Type) : Type := St -> A * St.

Definition ret {St A : Type} (a : A) : M St A := fun st => (a, st).

Definition bind {St A B : Type} (m : M St A) (k : A -> M St B) : M St B :=
  fun st => let (a, st') := m st in k a st'.

Notation "x <- m ;; k" := (bind m (fun x => k))
  (at level 61, m at next level, right associativity).

(** ** The relational store behind GORM

    Two tables, [contacts] and [phones], each with a serial primary key and the
    [deleted_at] column of [gorm.Model].  Queries issued without [Unscoped()]
    see only the rows whose [deleted_at] is null.  The [email] column carries
    the unique index of the [gorm:"unique"] tag.  Each call into GORM is one
    statement on the table it names; the write GORM cascades to a populated
    has-many field is left out (its rows carry the same numbers as the ones
    the repository inserts itself).  [faults] schedules the failures of the
    store: each call consumes one entry and fails with [ErrDriver] when the
    entry is [true]; an exhausted schedule means the store works. *)

Module ContactRow.
Record t : Type := mk {
  id : N;
  deleted_at : option N;
  first_name : string;
  last_name : string;
  email : string;
  primary_phone : string
}.
End ContactRow.

Record DB : Type := mkDB {
  contacts : list ContactRow.t;
  phones : list Phone.t;
  contacts_id_seq : N;
  phones_id_seq : N;
  faults : list bool
}.

Definition rowOf (c : Contact.t) : ContactRow.t :=
  ContactRow.mk (Contact.ID c) (Contact.DeletedAt c) (Contact.FirstName c)
                (Contact.LastName c) (Contact.Email c) (Contact.PrimaryPhone c).

Definition contactOf (r : ContactRow.t) (additional : list Phone.t) : Contact.t :=
  Contact.mk (ContactRow.id r) (ContactRow.deleted_at r) (ContactRow.first_name r)
             (ContactRow.last_name r) (ContactRow.email r) (ContactRow.primary_phone r)
             additional.

Definition isNull (d : option N) : bool :=
  match d with None => true | Some _ => false end.

(** The store answers the next call: the head of the schedule is consumed. *)
Definition tick (db : DB) : bool * DB :=
  match faults db with
  | [] => (false, db)
  | failed :: fs =>
      (failed, mkDB (contacts db) (phones db) (contacts_id_seq db) (phones_id_seq db) fs)
  end.

(** One call into GORM. *)
Definition call {A : Type} (stmt : DB -> result A * DB) : M DB (result A) :=
  fun db =>
    let (failed, db) := tick db in
    if failed then (Err ErrDriver, db) else stmt db.

(** [Model(&types.Contact{}).Where(...).Count(&count)] *)
Definition Count_contacts (where_ : ContactRow.t -> bool) : M DB (result nat) :=
  call (fun db =>
    (Ok (Datatypes.length (filter (fun r => isNull (ContactRow.deleted_at r) && where_ r) (contacts db))), db)).

(** [Model(&types.Phone{}).Where(...).Count(&count)] *)
Definition Count_phones (where_ : Phone.t -> bool) : M DB (result nat) :=
  call (fun db =>
    (Ok (Datatypes.length (filter (fun p => isNull (Phone.DeletedAt p) && where_ p) (phones db))), db)).

(** [ORDER BY id LIMIT 1] *)
Fixpoint firstById (rows : list ContactRow.t) : option ContactRow.t :=
  match rows with
  | [] => None
  | r :: rest =>
      match firstById rest with
      | None => Some r
      | Some m => if (ContactRow.id r <=? ContactRow.id m)%N then Some r else Some m
      end
  end.

(** The rows [Preload("AdditionalPhones")] attaches to a contact. *)
Definition preload (db : DB) (r : ContactRow.t) : Contact.t :=
  contactOf r (filter (fun p => isNull (Phone.DeletedAt p)
                                && (Phone.ContactID p =? ContactRow.id r)%N) (phones db)).

(** [Preload("AdditionalPhones").Where(...).First(&contact)] *)
Definition First_preload (where_ : ContactRow.t -> bool) : M DB (result Contact.t) :=
  call (fun db =>
    match firstById (filter (fun r => isNull (ContactRow.deleted_at r) && where_ r) (contacts db)) with
    | None => (Err ErrRecordNotFound, db)
    | Some r => (Ok (preload db r), db)
    end).

(** [Preload("AdditionalPhones").Find(&contacts)] *)
Definition Find_preload : M DB (result (list Contact.t)) :=
  call (fun db =>
    (Ok (map (preload db) (filter (fun r => isNull (ContactRow.deleted_at r)) (contacts db))), db)).

(** The unique index on [contacts.email]: the new values must differ from the
    stored ones and from each other. *)
Fixpoint uniqueEmails (stored new : list string) : bool :=
  match new with
  | [] => true
  | e :: rest => negb (existsb (String.eqb e) stored) && uniqueEmails (e :: stored) rest
  end.

(** Primary keys: a zero key is filled from the sequence (every insert of the
    program passes a zero key). *)
Fixpoint assignContactIDs (next : N) (cs : list Contact.t) : list Contact.t * N :=
  match cs with
  | [] => ([], next)
  | c :: rest =>
      if (Contact.ID c =? 0)%N
      then let (cs', n') := assignContactIDs (next + 1) rest in (Contact.setID next c :: cs', n')
      else let (cs', n') := assignContactIDs next rest in (c :: cs', n')
  end.

Fixpoint assignPhoneIDs (next : N) (ps : list Phone.t) : list Phone.t * N :=
  match ps with
  | [] => ([], next)
  | p :: rest =>
      if (Phone.ID p =? 0)%N
      then let (ps', n') := assignPhoneIDs (next + 1) rest in (Phone.setID next p :: ps', n')
      else let (ps', n') := assignPhoneIDs next rest in (p :: ps', n')
  end.

(** [Create(contacts)] on a slice of contacts: one INSERT, all rows or none. *)
Definition Create_contacts (cs : list Contact.t) : M DB (result (list Contact.t)) :=
  call (fun db =>
    match cs with
    | [] => (Err ErrEmptySlice, db)
    | _ =>
        if uniqueEmails (map ContactRow.email (contacts db)) (map Contact.Email cs)
        then let (cs', next) := assignContactIDs (contacts_id_seq db) cs in
             (Ok cs', mkDB (contacts db ++ map rowOf cs')%list (phones db) next
                           (phones_id_seq db) (faults db))
        else (Err ErrUniqueViolation, db)
    end).

(** [Create(contact.Contact)] on one contact; the key is written back. *)
Definition Create_contact (c : Contact.t) : M DB (result Contact.t) :=
  call (fun db =>
    if uniqueEmails (map ContactRow.email (contacts db)) [Contact.Email c]
    then let (cs', next) := assignContactIDs (contacts_id_seq db) [c] in
         (Ok (hd c cs'), mkDB (contacts db ++ map rowOf cs')%list (phones db) next
                              (phones_id_seq db) (faults db))
    else (Err ErrUniqueViolation, db)).

(** [Create(&contact.AdditionalPhones)]; the keys are written back. *)
Definition Create_phones (ps : list Phone.t) : M DB (result (list Phone.t)) :=
  call (fun db =>
    match ps with
    | [] => (Err ErrEmptySlice, db)
    | _ =>
        let (ps', next) := assignPhoneIDs (phones_id_seq db) ps in
        (Ok ps', mkDB (contacts db) (phones db ++ ps')%list (contacts_id_seq db) next (faults db))
    end).

(** The rows of [contacts] after [Save] has written contact [c]: every column
    of the row with that key is written; the row is inserted when there is none. *)
Definition saved (c : Contact.t) (rows : list ContactRow.t) : list ContactRow.t :=
  if existsb (fun r => (ContactRow.id r =? Contact.ID c)%N) rows
  then map (fun r => if (ContactRow.id r =? Contact.ID c)%N then rowOf c else r) rows
  else (rows ++ [rowOf c])%list.

(** [Save(contact.Contact)]: with a zero key an insert, otherwise the row
    with that key is written; the unique index is checked against the other
    rows. *)
Definition Save_contact (c : Contact.t) : M DB (result Contact.t) :=
  if (Contact.ID c =? 0)%N then Create_contact c
  else
    call (fun db =>
      let others := filter (fun r => negb (ContactRow.id r =? Contact.ID c)%N) (contacts db) in
      if existsb (String.eqb (Contact.Email c)) (map ContactRow.email others)
      then (Err ErrUniqueViolation, db)
      else (Ok c, mkDB (saved c (contacts db)) (phones db) (contacts_id_seq db)
                       (phones_id_seq db) (faults db))).

(** [Unscoped().Where(...).Delete(&types.Phone{})]: the rows leave the table. *)
Definition Delete_phones_unscoped (where_ : Phone.t -> bool) : M DB (result unit) :=
  call (fun db =>
    (Ok tt, mkDB (contacts db) (filter (fun p => negb (where_ p)) (phones db))
                 (contacts_id_seq db) (phones_id_seq db) (faults db))).

(** [Unscoped().Delete(&types.Contact{}, id)] *)
Definition Delete_contact_unscoped (id : N) : M DB (result unit) :=
  call (fun db =>
    (Ok tt, mkDB (filter (fun r => negb (ContactRow.id r =? id)%N) (contacts db)) (phones db)
                 (contacts_id_seq db) (phones_id_seq db) (faults db))).

(** ** package repository *)

(** The interface [ContactRepository].  A Go method that returns [error] alone
    returns [option error]; one that returns a value and an error returns a
    [result]; a method that writes through its pointer argument also returns
    the contact as it leaves it. *)
Class ContactRepository (St : Type) : Type := {
  Create : Contact.t -> M St (Contact.t * option error);
  FindByID : N -> M St (result Contact.t);
  Update : Contact.t -> M St (Contact.t * option error);
  Delete : N -> M St (option error);
  List : M St (result (list Contact.t));
  FindByEmail : string -> M St (result Contact.t);
  ImportContacts : list Contact.t -> M St (option error);
  CheckDuplicatePhone : string -> N -> M St (result bool)
}.

(** [GormContactRepository.CheckDuplicatePhone] *)
Definition Gorm_CheckDuplicatePhone (phoneNumber : string) (excludeContactID : N)
  : M DB (result bool) :=
  let query := fun r => String.eqb (ContactRow.primary_phone r) phoneNumber in
  let query :=
    if (0 <? excludeContactID)%N
    then fun r => query r && negb (ContactRow.id r =? excludeContactID)%N
    else query in
  r <- Count_contacts query ;;
  match r with
  | Err err => ret (Err err)
  | Ok count =>
      if (0 <? count)%nat then ret (Ok true)
      else
        let query := fun p => String.eqb (Phone.Number p) phoneNumber in
        let query :=
          if (0 <? excludeContactID)%N
          then fun p => query p && negb (Phone.ContactID p =? excludeContactID)%N
          else query in
        r <- Count_phones query ;;
        match r with
        | Err err => ret (Err err)
        | Ok count => ret (Ok (0 <? count)%nat)
        end
  end.

(** The loop "check for duplicate additional phones" of [Create] and [Update]. *)
Fixpoint checkAdditionalPhones (excludeContactID : N) (phones : list Phone.t)
  : M DB (option error) :=
  match phones with
  | [] => ret None
  | phone :: rest =>
      r <- Gorm_CheckDuplicatePhone (Phone.Number phone) excludeContactID ;;
      match r with
      | Err err => ret (Some err)
      | Ok true =>
          ret (Some (errors_New "additional phone number already exists in another contact"))
      | Ok false => checkAdditionalPhones excludeContactID rest
      end
  end.

(** The loop that re-parents the additional phones before they are inserted. *)
Definition reparent (contact : Contact.t) : Contact.t :=
  Contact.setAdditionalPhones
    (map (fun p => Phone.setID 0 (Phone.setContactID (Contact.ID contact) p))
         (Contact.AdditionalPhones contact)) contact.

(** "Save additional phones", the tail shared by [Create] and [Update]. *)
Definition saveAdditionalPhones (contact : Contact.t) : M DB (Contact.t * option error) :=
  let contact := reparent contact in
  if (0 <? Datatypes.length (Contact.AdditionalPhones contact))%nat then
    r <- Create_phones (Contact.AdditionalPhones contact) ;;
    match r with
    | Err err => ret (contact, Some err)
    | Ok ps => ret (Contact.setAdditionalPhones ps contact, None)
    end
  else ret (contact, None).

(** [GormContactRepository.Create] *)
Definition Gorm_Create (contact : Contact.t) : M DB (Contact.t * option error) :=
  r <- Gorm_CheckDuplicatePhone (Contact.PrimaryPhone contact) 0 ;;
  match r with
  | Err err => ret (contact, Some err)
  | Ok true =>
      ret (contact, Some (errors_New "primary phone number already exists in another contact"))
  | Ok false =>
      e <- checkAdditionalPhones 0 (Contact.AdditionalPhones contact) ;;
      match e with
      | Some err => ret (contact, Some err)
      | None =>
          r <- Create_contact contact ;;
          match r with
          | Err err => ret (contact, Some err)
          | Ok contact => saveAdditionalPhones contact
          end
      end
  end.

(** [GormContactRepository.FindByID] *)
Definition Gorm_FindByID (id : N) : M DB (result Contact.t) :=
  First_preload (fun r => (ContactRow.id r =? id)%N).

(** [GormContactRepository.Update] *)
Definition Gorm_Update (contact : Contact.t) : M DB (Contact.t * option error) :=
  r <- Gorm_CheckDuplicatePhone (Contact.PrimaryPhone contact) (Contact.ID contact) ;;
  match r with
  | Err err => ret (contact, Some err)
  | Ok true =>
      ret (contact, Some (errors_New "primary phone number already exists in another contact"))
  | Ok false =>
      e <- checkAdditionalPhones (Contact.ID contact) (Contact.AdditionalPhones contact) ;;
      match e with
      | Some err => ret (contact, Some err)
      | None =>
          r <- Save_contact contact ;;
          match r with
          | Err err => ret (contact, Some err)
          | Ok contact =>
              r <- Delete_phones_unscoped
                     (fun p => (Phone.ContactID p =? Contact.ID contact)%N) ;;
              match r with
              | Err err => ret (contact, Some err)
              | Ok _ => saveAdditionalPhones contact
              end
          end
      end
  end.

(** [GormContactRepository.Delete] *)
Definition Gorm_Delete (id : N) : M DB (option error) :=
  r <- Delete_phones_unscoped (fun p => (Phone.ContactID p =? id)%N) ;;
  match r with
  | Err err => ret (Some err)
  | Ok _ =>
      r <- Delete_contact_unscoped id ;;
      match r with
      | Err err => ret (Some err)
      | Ok _ => ret None
      end
  end.

(** [GormContactRepository.List] *)
Definition Gorm_List : M DB (result (list Contact.t)) := Find_preload.

(** [GormContactRepository.FindByEmail] *)
Definition Gorm_FindByEmail (email : string) : M DB (result Contact.t) :=
  First_preload (fun r => String.eqb (ContactRow.email r) email).

(** [GormContactRepository.ImportContacts] *)
Definition Gorm_ImportContacts (cs : list Contact.t) : M DB (option error) :=
  r <- Create_contacts cs ;;
  match r with
  | Err err => ret (Some err)
  | Ok _ => ret None
  end.

#[export] Instance GormContactRepository : ContactRepository DB := {
  Create := Gorm_Create;
  FindByID := Gorm_FindByID;
  Update := Gorm_Update;
  Delete := Gorm_Delete;
  List := Gorm_List;
  FindByEmail := Gorm_FindByEmail;
  ImportContacts := Gorm_ImportContacts;
  CheckDuplicatePhone := Gorm_CheckDuplicatePhone
}.

(** ** package handlers *)

Definition StatusOK : nat := 200.
Definition StatusCreated : nat := 201.
Definition StatusBadRequest : nat := 400.
Definition StatusNotFound : nat := 404.
Definition StatusConflict : nat := 409.
Definition StatusInternalServerError : nat := 500.

(** What [c.JSON] is given as its second argument. *)
Inductive body : Type :=
| H_error (msg : string)                          (* gin.H{"error": msg} *)
| H_message (msg : string)                        (* gin.H{"message": msg} *)
| H_imported (message : string) (imported : nat)  (* gin.H{"message": ..., "imported": n} *)
| JSON_contact (c : Contact.t)
| JSON_contacts (cs : list Contact.t).

Record Response : Type := mkResponse {
  Status : nat;
  Body : body
}.

(** The outcome of [c.ShouldBindJSON(&req)]. *)
Inductive Binding : Type :=
| BindError (msg : string)
| Bound (req : CreateContactRequest.t).

(** The outcome of [c.FormFile("file")], of [file.Open()] and [io.ReadAll],
    and of [gocsv.Unmarshal] on the bytes read ([None]: the CSV does not parse). *)
Inductive FileContents : Type :=
| OpenFails
| ReadFails
| Bytes (csvContacts : option (list CSVContact.t)).

Inductive FormFile : Type :=
| NoFile
| FileHeader (Filename : string) (contents : FileContents).

(** The loop of [ImportContacts] over the decoded rows. *)
Fixpoint contactsToImport (csvContacts : list CSVContact.t) : list Contact.t :=
  match csvContacts with
  | [] => []
  | csvContact :: rest =>
      let contact :=
        Contact.mk 0 None (CSVContact.FirstName csvContact) (CSVContact.LastName csvContact)
                   (CSVContact.Email csvContact) (CSVContact.PrimaryPhone csvContact) [] in
      match Validate contact with
      | Some _ => contactsToImport rest
      | None => FormatPhoneNumbers contact :: contactsToImport rest
      end
  end.

Module handlers.
Section ContactHandler.
Context {St : Type} {repo : ContactRepository St}.

Definition JSON (code : nat) (obj : body) : M St Response := ret (mkResponse code obj).

Definition CreateContact (binding : Binding) : M St Response :=
  match binding with
  | BindError msg => JSON StatusBadRequest (H_error msg)
  | Bound req =>
      let contact :=
        Contact.mk 0 None (CreateContactRequest.FirstName req)
                   (CreateContactRequest.LastName req) (CreateContactRequest.Email req)
                   (CreateContactRequest.PrimaryPhone req)
                   (CreateContactRequest.AdditionalPhones req) in
      match Validate contact with
      | Some err => JSON StatusBadRequest (H_error (Error err))
      | None =>
          let contact := FormatPhoneNumbers contact in
          existing <- FindByEmail (CreateContactRequest.Email req) ;;
          match existing with
          | Ok _ => JSON StatusConflict (H_error "Email already exists")
          | Err _ =>
              created <- Create contact ;;
              match snd created with
              | Some _ => JSON StatusInternalServerError (H_error "Failed to create contact")
              | None => JSON StatusCreated (JSON_contact (fst created))
              end
          end
      end
  end.

Definition ListContacts : M St Response :=
  r <- List ;;
  match r with
  | Err _ => JSON StatusInternalServerError (H_error "Failed to fetch contacts")
  | Ok contacts => JSON StatusOK (JSON_contacts contacts)
  end.

Definition GetContact (idParam : string) : M St Response :=
  match ParseUint idParam with
  | None => JSON StatusBadRequest (H_error "Invalid ID format")
  | Some id =>
      r <- FindByID id ;;
      match r with
      | Err _ => JSON StatusNotFound (H_error "Contact not found")
      | Ok contact => JSON StatusOK (JSON_contact contact)
      end
  end.

Definition UpdateContact (idParam : string) (binding : Binding) : M St Response :=
  match ParseUint idParam with
  | None => JSON StatusBadRequest (H_error "Invalid ID format")
  | Some id =>
      match binding with
      | BindError msg => JSON StatusBadRequest (H_error msg)
      | Bound req =>
          r <- FindByID id ;;
          match r with
          | Err _ => JSON StatusNotFound (H_error "Contact not found")
          | Ok existingContact =>
              let existingContact :=
                Contact.setFirstName (CreateContactRequest.FirstName req) existingContact in
              let existingContact :=
                Contact.setLastName (CreateContactRequest.LastName req) existingContact in
              let existingContact :=
                Contact.setEmail (CreateContactRequest.Email req) existingContact in
              let existingContact :=
                Contact.setPrimaryPhone (CreateContactRequest.PrimaryPhone req) existingContact in
              let existingContact :=
                Contact.setAdditionalPhones (CreateContactRequest.AdditionalPhones req)
                                            existingContact in
              match Validate existingContact with
              | Some err => JSON StatusBadRequest (H_error (Error err))
              | None =>
                  let existingContact := FormatPhoneNumbers existingContact in
                  emailContact <- FindByEmail (CreateContactRequest.Email req) ;;
                  let conflict :=
                    match emailContact with
                    | Ok found => negb (Contact.ID found =? Contact.ID existingContact)%N
                    | Err _ => false
                    end in
                  if conflict then JSON StatusConflict (H_error "Email already exists")
                  else
                    updated <- Update existingContact ;;
                    match snd updated with
                    | Some _ =>
                        JSON StatusInternalServerError (H_error "Failed to update contact")
                    | None => JSON StatusOK (JSON_contact (fst updated))
                    end
              end
          end
      end
  end.

Definition DeleteContact (idParam : string) : M St Response :=
  match ParseUint idParam with
  | None => JSON StatusBadRequest (H_error "Invalid ID format")
  | Some id =>
      r <- FindByID id ;;
      match r with
      | Err _ => JSON StatusNotFound (H_error "Contact not found")
      | Ok _ =>
          e <- Delete id ;;
          match e with
          | Some _ => JSON StatusInternalServerError (H_error "Failed to delete contact")
          | None => JSON StatusOK (H_message "Contact deleted successfully")
          end
      end
  end.

Definition ImportContacts (file : FormFile) : M St Response :=
  match file with
  | NoFile => JSON StatusBadRequest (H_error "No file uploaded")
  | FileHeader Filename contents =>
      if negb (HasSuffix Filename ".csv")
      then JSON StatusBadRequest (H_error "File must be a CSV")
      else
        match contents with
        | OpenFails => JSON StatusInternalServerError (H_error "Failed to open file")
        | ReadFails => JSON StatusInternalServerError (H_error "Failed to read file")
        | Bytes None => JSON StatusBadRequest (H_error "Failed to parse CSV file")
        | Bytes (Some csvContacts) =>
            let toImport := contactsToImport csvContacts in
            e <- ImportContacts toImport ;;
            match e with
            | Some _ => JSON StatusInternalServerError (H_error "Failed to import contacts")
            | None => JSON StatusOK (H_imported "Import completed" (Datatypes.length toImport))
            end
        end
  end.

End ContactHandler.
End handlers.

(** The routes of [setupRouter]. *)
Inductive Request : Type :=
| POST_contacts (binding : Binding)
| GET_contacts
| GET_contacts_id (id : string)
| PUT_contacts_id (id : string) (binding : Binding)
| DELETE_contacts_id (id : string)
| POST_contacts_import (file : FormFile).

Definition serve {St : Type} {repo : ContactRepository St} (rq : Request) : M St Response :=
  match rq with
  | POST_contacts binding => handlers.CreateContact binding
  | GET_contacts => handlers.ListContacts
  | GET_contacts_id id => handlers.GetContact id
  | PUT_contacts_id id binding => handlers.UpdateContact id binding
  | DELETE_contacts_id id => handlers.DeleteContact id
  | POST_contacts_import file => handlers.ImportContacts file
  end.


Definition emptyDB : DB := mkDB [] [] 1 1 [].

(** ** Vocabulary of the properties *)

Fixpoint hasByte (b : ascii) (s : string) : bool :=
  match s with
  | EmptyString => false
  | String c r => Ascii.eqb c b || hasByte b r
  end.

Fixpoint countDigits (s : string) : nat :=
  match s with
  | EmptyString => 0
  | String c r => if isDigit c then S (countDigits r) else countDigits r
  end.

Fixpoint digitsOnly (s : string) : bool :=
  match s with
  | EmptyString => true
  | String c r => isDigit c && digitsOnly r
  end.

(** The contact a handler builds from a bound request, and the one
    [UpdateContact] obtains by overwriting the five fields of the stored one. *)
Definition requestContact (req : CreateContactRequest.t) : Contact.t :=
  Contact.mk 0 None (CreateContactRequest.FirstName req) (CreateContactRequest.LastName req)
             (CreateContactRequest.Email req) (CreateContactRequest.PrimaryPhone req)
             (CreateContactRequest.AdditionalPhones req).

Definition overwritten (existing : Contact.t) (req : CreateContactRequest.t) : Contact.t :=
  Contact.mk (Contact.ID existing) (Contact.DeletedAt existing)
             (CreateContactRequest.FirstName req) (CreateContactRequest.LastName req)
             (CreateContactRequest.Email req) (CreateContactRequest.PrimaryPhone req)
             (CreateContactRequest.AdditionalPhones req).

Definition csvContact (row : CSVContact.t) : Contact.t :=
  Contact.mk 0 None (CSVContact.FirstName row) (CSVContact.LastName row)
             (CSVContact.Email row) (CSVContact.PrimaryPhone row) [].


(** [needs a r]: a sufficient syntactic condition for every text matched by
    [r] to contain the byte [a]. *)
Fixpoint needs (a : ascii) (r : regex) : bool :=
  match r with
  | Void => true
  | Eps => false
  | Class [(lo, hi)] => Ascii.eqb lo a && Ascii.eqb hi a
  | Class _ => false
  | Cat r1 r2 => needs a r1 || needs a r2
  | Alt r1 r2 => needs a r1 && needs a r2
  | Star _ => false
  end.

(** A contact that queries can see. *)
Definition contactExists (db : DB) (id : N) : Prop :=
  exists r, In r (contacts db) /\ ContactRow.id r = id /\ ContactRow.deleted_at r = None.

Definition emailExists (db : DB) (email : string) : Prop :=
  exists r, In r (contacts db) /\ ContactRow.email r = email /\ ContactRow.deleted_at r = None.

(** Number [p] is the primary phone or an additional phone of contact [owner]. *)
Definition phoneOf (db : DB) (owner : N) (p : string) : Prop :=
  (exists r, In r (contacts db) /\ ContactRow.deleted_at r = None
             /\ ContactRow.id r = owner /\ ContactRow.primary_phone r = p)
  \/ (exists q, In q (phones db) /\ Phone.DeletedAt q = None
                /\ Phone.ContactID q = owner /\ Phone.Number q = p).

(** Number [p] belongs to a contact other than [exclude]; no contact is
    excluded when [exclude] is zero. *)
Definition phoneOfOther (db : DB) (exclude : N) (p : string) : Prop :=
  exists owner, (exclude <> 0%N -> owner <> exclude) /\ phoneOf db owner p.

(** The tables are the same (the two stores may differ in their fault schedule). *)
Definition sameData (db db' : DB) : Prop :=
  contacts db' = contacts db /\ phones db' = phones db
  /\ contacts_id_seq db' = contacts_id_seq db /\ phones_id_seq db' = phones_id_seq db.

(** The response carries a plain message. *)
Definition plainMessage (r : Response) : Prop := exists msg, Body r = H_error msg.









(** ** Sample data *)

Definition annRow : ContactRow.t :=
  ContactRow.mk 1 None "Ann" "Lee" "ann@example.com" "15551234567".

Definition annPhone : Phone.t := Phone.mk 1 None 1 "5550100" "home".

(** The store after Ann was created, working and failing on its next call. *)
Definition annDB : DB := mkDB [annRow] [annPhone] 2 2 [].
Definition annDB_failing : DB := mkDB [annRow] [annPhone] 2 2 [true].

Definition annRequest : CreateContactRequest.t :=
  CreateContactRequest.mk "Ann" "Lee" "ann@example.com" "+1 (555) 123-4567"
                          [Phone.mk 0 None 0 "555-0100" "home"].

(** Bob asks for Ann's primary number, written with dashes. *)
Definition bobRequest : CreateContactRequest.t :=
  CreateContactRequest.mk "Bob" "Ray" "bob@example.com" "1-555-123-4567" [].

(** A request with Ann's email and a primary phone that is too short. *)
Definition annShortPhoneRequest : CreateContactRequest.t :=
  CreateContactRequest.mk "Ann" "Lee" "ann@example.com" "123" [].


(** Three CSV rows, the second without a first name. *)
Definition threeRows : list CSVContact.t :=
  [CSVContact.mk "Ann" "Lee" "ann@example.com" "(555) 123-4567";
   CSVContact.mk "" "Ray" "bob@example.com" "5557654321";
   CSVContact.mk "Cy" "Poe" "cy@example.com" "5550001111"].


(** The same number under two types, and the same number twice under one type. *)
Definition homePhone : Phone.t := Phone.mk 0 None 0 "5550100200" "home".
Definition workPhone : Phone.t := Phone.mk 0 None 0 "5550100200" "work".

Definition twoTypesRequest : CreateContactRequest.t :=
  CreateContactRequest.mk "Ann" "Lee" "ann@example.com" "5551234567" [homePhone; workPhone].

Definition sameTypeRequest : CreateContactRequest.t :=
  CreateContactRequest.mk "Ann" "Lee" "ann@example.com" "5551234567" [homePhone; homePhone].

(** A store with Ann and Bob. *)
Definition bobRow : ContactRow.t :=
  ContactRow.mk 2 None "Bob" "Ray" "bob@example.com" "15557654321".

Definition bobPhone : Phone.t := Phone.mk 2 None 2 "5550199" "work".

Definition annBobDB : DB := mkDB [annRow; bobRow] [annPhone; bobPhone] 3 3 [].

(** ** package config *)

Module ServerConfig.
Record t : Type := mk {
  Port : string;
  GinMode : string
}.
End ServerConfig.

Module DatabaseConfig.
Record t : Type := mk {
  Host : string;
  Port : string;
  User : string;
  Password : string;
  DBName : string;
  URL : string
}.
End DatabaseConfig.

Module CORSConfig.
Record t : Type := mk {
  AllowedOrigins : list string
}.
End CORSConfig.

Module Config.
Record t : Type := mk {
  Server : ServerConfig.t;
  Database : DatabaseConfig.t;
  CORS : CORSConfig.t
}.
End Config.

(** [getEnvOrDefault]; [Getenv] is [os.Getenv] on the environment of the
    process (after [godotenv.Load]): the empty string for a variable not set. *)
Definition getEnvOrDefault (Getenv : string -> string) (key defaultValue : string) : string :=
  let value := Getenv key in
  if negb (String.eqb value "") then value else defaultValue.

(** [config.Load]; the error it returns is always nil. *)
Definition Load (Getenv : string -> string) : Config.t * option error :=
  (Config.mk
     (ServerConfig.mk (getEnvOrDefault Getenv "PORT" "8080")
                      (getEnvOrDefault Getenv "GIN_MODE" "debug"))
     (DatabaseConfig.mk (getEnvOrDefault Getenv "DB_HOST" "localhost")
                        (getEnvOrDefault Getenv "DB_PORT" "5432")
                        (getEnvOrDefault Getenv "DB_USER" "postgres")
                        (getEnvOrDefault Getenv "DB_PASSWORD" "")
                        (getEnvOrDefault Getenv "DB_NAME" "contactmanagement_db")
                        (getEnvOrDefault Getenv "DATABASE_URL" ""))
     (CORSConfig.mk [getEnvOrDefault Getenv "ALLOWED_ORIGINS" "http://localhost:3000"]),
   None).

(** [DatabaseConfig.GetDatabaseURL]; [fmt.Sprintf] with [%s] verbs is
    concatenation. *)
Definition GetDatabaseURL (c : DatabaseConfig.t) : string :=
  if negb (String.eqb (DatabaseConfig.URL c) "") then DatabaseConfig.URL c
  else
    "host=" ++ DatabaseConfig.Host c ++ " user=" ++ DatabaseConfig.User c
    ++ " password=" ++ DatabaseConfig.Password c ++ " dbname=" ++ DatabaseConfig.DBName c
    ++ " port=" ++ DatabaseConfig.Port c ++ " sslmode=disable".

(** ** Further vocabulary *)

(** [alphabet r c]: byte [c] lies in a class of [r]; [dead r]: a sufficient
    syntactic condition for [r] to match no text. *)
Fixpoint alphabet (r : regex) (c : ascii) : bool :=
  match r with
  | Void => false
  | Eps => false
  | Class rs => inClass rs c
  | Cat r1 r2 => alphabet r1 c || alphabet r2 c
  | Alt r1 r2 => alphabet r1 c || alphabet r2 c
  | Star r1 => alphabet r1 c
  end.

Fixpoint dead (r : regex) : bool :=
  match r with
  | Void => true
  | Cat r1 r2 => dead r1 || dead r2
  | Alt r1 r2 => dead r1 && dead r2
  | _ => false
  end.

(** Every byte of [s] satisfies [p]. *)
Fixpoint allBytes (p : ascii -> bool) (s : string) : bool :=
  match s with
  | EmptyString => true
  | String c r => p c && allBytes p r
  end.

(** The bytes an email address may contain: ASCII letters, digits and
    [. _ % + - @]. *)
Definition emailByte (c : ascii) : bool :=
  inClass [("a", "z"); ("A", "Z"); ("0", "9"); (".", "."); ("_", "_"); ("%", "%");
           ("+", "+"); ("-", "-"); ("@", "@")]%char c.


(** The phones a query attaches to contact [id]. *)
Definition visiblePhonesOf (db : DB) (id : N) : list Phone.t :=
  filter (fun p => isNull (Phone.DeletedAt p) && (Phone.ContactID p =? id)%N) (phones db).



(** A sample environment. *)
Definition sampleEnv (key : string) : string :=
  if String.eqb key "PORT" then "9090"
  else if String.eqb key "DB_PASSWORD" then "s3cret"
  else if String.eqb key "ALLOWED_ORIGINS" then "https://a.example,https://b.example"
  else "".

(* ================================================================== *)
(** * Part II. Properties *)
(* ================================================================== *)

(** ** The helpers on concrete inputs *)

Example TrimSpace_ex1 : TrimSpace "  Ann Lee	 " = "Ann Lee".
Proof. reflexivity. Qed.

Example TrimSpace_ex2 :
  TrimSpace (String (ascii_of_nat 194) (String (ascii_of_nat 160) " ")) = "".
Proof. reflexivity. Qed.

Example isValidEmail_ex1 : isValidEmail "ann.lee@example.com" = true.
Proof. reflexivity. Qed.

Example isValidEmail_ex2 : isValidEmail "ann@example.c" = false.
Proof. reflexivity. Qed.

Example isValidPhone_ex1 : isValidPhone "+1 (555) 123-4567" = true.
Proof. reflexivity. Qed.

Example formatPhoneNumber_ex1 : formatPhoneNumber "+1 (555) 123-4567" = "15551234567".
Proof. reflexivity. Qed.

Example ParseUint_ex1 :
  ParseUint "4294967295" = Some 4294967295%N /\ ParseUint "4294967296" = None
  /\ ParseUint "+7" = None /\ ParseUint "" = None.
Proof. repeat split; reflexivity. Qed.

Example HasSuffix_ex1 :
  HasSuffix "contacts.csv" ".csv" = true /\ HasSuffix "contacts.csv.txt" ".csv" = false
  /\ HasSuffix "csv" ".csv" = false.
Proof. repeat split; reflexivity. Qed.

Example Validate_ex1 :
  Validate (requestContact annRequest) = None
  /\ Validate (requestContact annShortPhoneRequest)
     = Some (errors_New "invalid primary phone format")
  /\ Validate (requestContact sameTypeRequest)
     = Some (errors_New "duplicate phone numbers are not allowed").
Proof. repeat split; reflexivity. Qed.

Example DeleteContact_ann :
  handlers.DeleteContact "1" annBobDB
  = (mkResponse StatusOK (H_message "Contact deleted successfully"),
     mkDB [bobRow] [bobPhone] 3 3 []).
Proof. reflexivity. Qed.

(** ** Strings and patterns *)

Lemma byte_inj : forall a b, byte a = byte b -> a = b.
Proof.
  unfold byte. intros a b H.
  rewrite <- (ascii_N_embedding a), <- (ascii_N_embedding b). now rewrite H.
Qed.

Lemma inRange_single : forall a c, inRange a a c = true -> c = a.
Proof.
  unfold inRange. intros a c H. apply andb_prop in H as [H1 H2].
  apply N.leb_le in H1, H2. apply byte_inj. lia.
Qed.

Lemma needs_not_nullable : forall a r, needs a r = true -> nullable r = false.
Proof.
  induction r as [| |rs|r1 IH1 r2 IH2|r1 IH1 r2 IH2|r IH]; simpl; intros H;
    try discriminate; try reflexivity.
  - apply orb_prop in H as [H|H].
    + now rewrite (IH1 H).
    + rewrite (IH2 H). apply andb_false_r.
  - apply andb_prop in H as [H1 H2]. now rewrite (IH1 H1), (IH2 H2).
Qed.

Lemma needs_deriv : forall a c r, c <> a -> needs a r = true -> needs a (deriv c r) = true.
Proof.
  intros a c r Hc.
  induction r as [| |rs|r1 IH1 r2 IH2|r1 IH1 r2 IH2|r IH]; simpl; intros H;
    try discriminate; try reflexivity.
  - destruct rs as [|[lo hi] [|? ?]]; try discriminate.
    apply andb_prop in H as [Hlo Hhi].
    apply Ascii.eqb_eq in Hlo, Hhi. subst lo hi.
    unfold inClass. simpl. rewrite orb_false_r.
    destruct (inRange a a c) eqn:E; [|reflexivity].
    apply inRange_single in E. contradiction.
  - destruct (nullable r1) eqn:N1.
    + apply orb_prop in H as [H|H].
      * rewrite (needs_not_nullable _ _ H) in N1. discriminate.
      * simpl. rewrite H, (IH2 H). now rewrite orb_true_r.
    + simpl. apply orb_prop in H as [H|H].
      * now rewrite (IH1 H).
      * rewrite H. apply orb_true_r.
  - apply andb_prop in H as [H1 H2]. now rewrite (IH1 H1), (IH2 H2).
Qed.

Lemma needs_no_match :
  forall a s r, needs a r = true -> hasByte a s = false -> MatchString r s = false.
Proof.
  induction s as [|c s IH]; simpl; intros r Hr Hs.
  - now apply needs_not_nullable with (a := a).
  - apply orb_false_elim in Hs as [Hc Hs].
    apply IH; [|assumption]. apply needs_deriv; [|assumption].
    intros ->. rewrite Ascii.eqb_refl in Hc. discriminate.
Qed.

Lemma isValidEmail_has_at : forall email, hasByte "@" email = false -> isValidEmail email = false.
Proof. intros email H. apply needs_no_match with (a := "@"%char); [reflexivity | assumption]. Qed.

Lemma cleaned_length :
  forall s, String.length (ReplaceAllString_empty nonDigit s) = countDigits s.
Proof.
  induction s as [|c s IH]; simpl; [reflexivity|].
  destruct (nonDigit c) eqn:E; unfold nonDigit in E;
    destruct (isDigit c); try discriminate; simpl; congruence.
Qed.

Lemma cleaned_digitsOnly : forall s, digitsOnly (ReplaceAllString_empty nonDigit s) = true.
Proof.
  induction s as [|c s IH]; simpl; [reflexivity|].
  destruct (nonDigit c) eqn:E; [assumption|].
  unfold nonDigit in E. simpl. destruct (isDigit c); [assumption|discriminate].
Qed.

Lemma isValidPhone_nine : forall phone, countDigits phone = 9 -> isValidPhone phone = false.
Proof. intros phone H. unfold isValidPhone. now rewrite cleaned_length, H. Qed.

(** ** Validation *)

Lemma Validate_bad_email :
  forall c, hasByte "@" (Contact.Email c) = false -> Validate c <> None.
Proof.
  intros c H. unfold Validate.
  destruct (String.eqb (TrimSpace (Contact.FirstName c)) ""); [discriminate|].
  destruct (String.eqb (TrimSpace (Contact.LastName c)) ""); [discriminate|].
  rewrite (isValidEmail_has_at _ H). discriminate.
Qed.

Lemma Validate_bad_phone :
  forall c, countDigits (Contact.PrimaryPhone c) = 9 -> Validate c <> None.
Proof.
  intros c H. unfold Validate.
  destruct (String.eqb (TrimSpace (Contact.FirstName c)) ""); [discriminate|].
  destruct (String.eqb (TrimSpace (Contact.LastName c)) ""); [discriminate|].
  destruct (negb (isValidEmail (Contact.Email c))); [discriminate|].
  rewrite (isValidPhone_nine _ H). discriminate.
Qed.

Lemma contactsToImport_app :
  forall a b, contactsToImport (a ++ b) = (contactsToImport a ++ contactsToImport b)%list.
Proof.
  induction a as [|row a IH]; intros b; simpl; [reflexivity|].
  destruct (Validate _); [apply IH|]. simpl. now rewrite IH.
Qed.

(** How the handlers answer a contact that [Validate] rejects. *)
Lemma CreateContact_invalid :
  forall (St : Type) (repo : ContactRepository St) req st err,
    Validate (requestContact req) = Some err ->
    handlers.CreateContact (Bound req) st = (mkResponse StatusBadRequest (H_error (Error err)), st).
Proof.
  intros St repo req st err H. unfold handlers.CreateContact.
  fold (requestContact req). now rewrite H.
Qed.

Lemma UpdateContact_invalid :
  forall (St : Type) (repo : ContactRepository St) idParam id req st existing st' err,
    ParseUint idParam = Some id ->
    FindByID id st = (Ok existing, st') ->
    Validate (overwritten existing req) = Some err ->
    handlers.UpdateContact idParam (Bound req) st
    = (mkResponse StatusBadRequest (H_error (Error err)), st').
Proof.
  intros St repo idParam id req st existing st' err Hid Hfind H.
  unfold handlers.UpdateContact. rewrite Hid. unfold bind at 1. rewrite Hfind.
  change (Contact.setAdditionalPhones _ _) with (overwritten existing req).
  now rewrite H.
Qed.

Example CreateContact_ann :
  handlers.CreateContact (Bound annRequest) emptyDB
  = (mkResponse StatusCreated (JSON_contact (contactOf annRow [annPhone])), annDB).
Proof. reflexivity. Qed.

(** C8. Contact validation rejects every contact whose email has no '@'
    character and every contact whose primary phone has exactly nine digit
    characters.  On create the rejection is answered with status 400; on update
    the contact under validation is the stored one (found by its id) with the
    request's fields written over it, and the rejection is answered with status
    400; on CSV import the row is skipped. *)
Theorem validation_rejects_email_without_at_and_nine_digit_phone :
  forall (St : Type) (repo : ContactRepository St)
         (firstName lastName email primaryPhone : string) (additional : list Phone.t),
    hasByte "@" email = false \/ countDigits primaryPhone = 9 ->
    let req := CreateContactRequest.mk firstName lastName email primaryPhone additional in
    (forall id deletedAt,
        Validate (Contact.mk id deletedAt firstName lastName email primaryPhone additional)
        <> None)
    /\ (forall st, Status (fst (handlers.CreateContact (Bound req) st)) = StatusBadRequest)
    /\ (forall idParam id existing st st',
           ParseUint idParam = Some id ->
           FindByID id st = (Ok existing, st') ->
           Status (fst (handlers.UpdateContact idParam (Bound req) st)) = StatusBadRequest)
    /\ (forall before after,
           contactsToImport
             (before ++ CSVContact.mk firstName lastName email primaryPhone :: after)
           = contactsToImport (before ++ after)).
Proof.
  intros St repo firstName lastName email primaryPhone additional Hbad req.
  assert (Hrej : forall id deletedAt phones,
             Validate (Contact.mk id deletedAt firstName lastName email primaryPhone phones)
             <> None).
  { intros id deletedAt phones. destruct Hbad as [H|H].
    - now apply Validate_bad_email.
    - now apply Validate_bad_phone. }
  split; [intros; apply Hrej|]. split; [|split].
  - intros st. destruct (Validate (requestContact req)) as [err|] eqn:E.
    + now rewrite (CreateContact_invalid _ _ _ _ _ E).
    + exfalso. revert E. apply Hrej.
  - intros idParam id existing st st' Hid Hfind.
    destruct (Validate (overwritten existing req)) as [err|] eqn:E.
    + now rewrite (UpdateContact_invalid _ _ _ _ _ _ _ _ _ Hid Hfind E).
    + exfalso. revert E. apply Hrej.
  - intros before after. rewrite !contactsToImport_app. f_equal. simpl.
    destruct (Validate _) eqn:E; [reflexivity|].
    exfalso. revert E. apply Hrej.
Qed.

Lemma validation_rejects_email_without_at_and_nine_digit_phone_witness :
  (hasByte "@" "ann.example.com" = false \/ countDigits "+1 (555) 123-4567" = 9)
  /\ Status (fst (handlers.CreateContact
                    (Bound (CreateContactRequest.mk "Ann" "Lee" "ann.example.com"
                                                    "+1 (555) 123-4567" [])) emptyDB))
     = StatusBadRequest
  /\ Status (fst (handlers.UpdateContact "1"
                    (Bound (CreateContactRequest.mk "Ann" "Lee" "ann.example.com"
                                                    "+1 (555) 123-4567" [])) annDB))
     = StatusBadRequest
  /\ contactsToImport
       [CSVContact.mk "Bob" "Ray" "bob@example.com" "5550123456";
        CSVContact.mk "Ann" "Lee" "ann.example.com" "+1 (555) 123-4567"]
     = contactsToImport [CSVContact.mk "Bob" "Ray" "bob@example.com" "5550123456"].
Proof.
  destruct (validation_rejects_email_without_at_and_nine_digit_phone
              DB GormContactRepository "Ann" "Lee" "ann.example.com" "+1 (555) 123-4567" []
              (or_introl eq_refl)) as (_ & Hcreate & Hupdate & Himport).
  split; [left; reflexivity|]. split; [apply Hcreate|]. split.
  - apply (Hupdate "1" 1%N (contactOf annRow [annPhone]) annDB annDB); reflexivity.
  - apply (Himport [CSVContact.mk "Bob" "Ray" "bob@example.com" "5550123456"] []).
Defined.

(** ** Duplicate additional phones *)

Lemma checkPhoneSet_seen :
  forall l seen q rest,
    existsb (String.eqb (phoneKey q)) seen = true ->
    checkPhoneSet seen (l ++ q :: rest) <> None.
Proof.
  induction l as [|x l IH]; intros seen q rest H; simpl.
  - rewrite H. discriminate.
  - destruct (existsb (String.eqb (phoneKey x)) seen); [discriminate|].
    apply IH. simpl. rewrite H. apply orb_true_r.
Qed.

Lemma checkPhoneSet_twice :
  forall l1 seen p l2 q l3,
    phoneKey p = phoneKey q ->
    checkPhoneSet seen (l1 ++ p :: l2 ++ q :: l3) <> None.
Proof.
  induction l1 as [|x l1 IH]; intros seen p l2 q l3 H; simpl.
  - destruct (existsb (String.eqb (phoneKey p)) seen); [discriminate|].
    apply checkPhoneSet_seen. simpl. rewrite H, String.eqb_refl. reflexivity.
  - destruct (existsb (String.eqb (phoneKey x)) seen); [discriminate|].
    now apply IH.
Qed.

Lemma Validate_twice :
  forall c l1 p l2 q l3,
    Contact.AdditionalPhones c = (l1 ++ p :: l2 ++ q :: l3)%list ->
    Phone.Number p = Phone.Number q -> Phone.Type_ p = Phone.Type_ q ->
    Validate c <> None.
Proof.
  intros c l1 p l2 q l3 Hl Hn Ht. unfold Validate.
  destruct (String.eqb (TrimSpace (Contact.FirstName c)) ""); [discriminate|].
  destruct (String.eqb (TrimSpace (Contact.LastName c)) ""); [discriminate|].
  destruct (negb (isValidEmail (Contact.Email c))); [discriminate|].
  destruct (negb (isValidPhone (Contact.PrimaryPhone c))); [discriminate|].
  rewrite Hl. apply checkPhoneSet_twice. unfold phoneKey. now rewrite Hn, Ht.
Qed.

(** C9, as stated, fails: the same number under two different types passes
    validation and the contact is created. *)
Lemma same_number_twice_is_accepted :
  Phone.Number homePhone = Phone.Number workPhone
  /\ CreateContactRequest.AdditionalPhones twoTypesRequest = [homePhone; workPhone]
  /\ Validate (requestContact twoTypesRequest) = None
  /\ Status (fst (handlers.CreateContact (Bound twoTypesRequest) emptyDB)) = StatusCreated.
Proof. repeat split; reflexivity. Qed.

(** C9, amended. A create request, or an update request for a contact that is
    found, whose additionalPhones list contains two entries with the same
    number (as sent) and the same type fails validation and is answered with
    status 400 and a plain message string. *)
Theorem duplicate_number_and_type_rejected :
  forall (St : Type) (repo : ContactRepository St) (req : CreateContactRequest.t)
         (l1 : list Phone.t) (p : Phone.t) (l2 : list Phone.t) (q : Phone.t) (l3 : list Phone.t),
    CreateContactRequest.AdditionalPhones req = (l1 ++ p :: l2 ++ q :: l3)%list ->
    Phone.Number p = Phone.Number q ->
    Phone.Type_ p = Phone.Type_ q ->
    Validate (requestContact req) <> None
    /\ (forall st,
           Status (fst (handlers.CreateContact (Bound req) st)) = StatusBadRequest
           /\ plainMessage (fst (handlers.CreateContact (Bound req) st)))
    /\ (forall idParam id existing st st',
           ParseUint idParam = Some id ->
           FindByID id st = (Ok existing, st') ->
           Status (fst (handlers.UpdateContact idParam (Bound req) st)) = StatusBadRequest
           /\ plainMessage (fst (handlers.UpdateContact idParam (Bound req) st))).
Proof.
  intros St repo req l1 p l2 q l3 Hl Hn Ht.
  assert (Hrej : forall existing, Validate (overwritten existing req) <> None).
  { intros existing. now apply Validate_twice with l1 p l2 q l3. }
  split; [apply (Hrej (Contact.mk 0 None "" "" "" "" []))|]. split.
  - intros st. destruct (Validate (requestContact req)) as [err|] eqn:E.
    + rewrite (CreateContact_invalid _ _ _ _ _ E). split; [reflexivity|].
      now exists (Error err).
    + exfalso. revert E. apply (Hrej (Contact.mk 0 None "" "" "" "" [])).
  - intros idParam id existing st st' Hid Hfind.
    destruct (Validate (overwritten existing req)) as [err|] eqn:E.
    + rewrite (UpdateContact_invalid _ _ _ _ _ _ _ _ _ Hid Hfind E). split; [reflexivity|].
      now exists (Error err).
    + exfalso. revert E. apply Hrej.
Qed.

Lemma duplicate_number_and_type_rejected_witness :
  Status (fst (handlers.CreateContact (Bound sameTypeRequest) emptyDB)) = StatusBadRequest
  /\ Status (fst (handlers.UpdateContact "1" (Bound sameTypeRequest) annDB)) = StatusBadRequest.
Proof.
  destruct (duplicate_number_and_type_rejected DB GormContactRepository sameTypeRequest
              [] homePhone [] homePhone [] eq_refl eq_refl eq_refl) as (_ & Hcreate & Hupdate).
  split.
  - apply Hcreate.
  - apply (Hupdate "1" 1%N (contactOf annRow [annPhone]) annDB annDB); reflexivity.
Defined.

(** ** The store: calls and queries *)

Lemma sameData_refl : forall db, sameData db db.
Proof. intros db. repeat split. Qed.

Lemma sameData_trans : forall a b c, sameData a b -> sameData b c -> sameData a c.
Proof.
  intros a b c (H1 & H2 & H3 & H4) (K1 & K2 & K3 & K4).
  repeat split; congruence.
Qed.

Lemma sameData_sym : forall a b, sameData a b -> sameData b a.
Proof. intros a b (H1 & H2 & H3 & H4). repeat split; congruence. Qed.

Lemma tick_sameData : forall db, sameData db (snd (tick db)).
Proof. intros db. unfold tick. destruct (faults db); repeat split. Qed.

Lemma tick_quiet : forall db, faults db = [] -> tick db = (false, db).
Proof. intros db H. unfold tick. now rewrite H. Qed.

Lemma tick_failed : forall db, fst (tick db) = true -> faults db <> [].
Proof. intros db. unfold tick. destruct (faults db); simpl; congruence. Qed.

(** Reasoning principle for one call: either the store fails, or the
    statement runs on a store with the same tables. *)
Lemma call_ind :
  forall (A : Type) (stmt : DB -> result A * DB) (db : DB) (P : result A * DB -> Prop),
    (forall db1, sameData db db1 -> (faults db = [] -> db1 = db) -> P (stmt db1)) ->
    (forall db1, sameData db db1 -> faults db <> [] -> P (Err ErrDriver, db1)) ->
    P (call stmt db).
Proof.
  intros A stmt db P Hrun Hfail. unfold call.
  pose proof (tick_sameData db) as Hs. pose proof (tick_quiet db) as Hq.
  pose proof (tick_failed db) as Hf.
  destruct (tick db) as [failed db1]. simpl in *. destruct failed.
  - apply Hfail; auto.
  - apply Hrun; auto. intros H. specialize (Hq H). congruence.
Qed.


(** A query: the tables are read, not written. *)
Lemma query_spec :
  forall (A : Type) (f : DB -> A) db r db',
    (forall d d', sameData d d' -> f d' = f d) ->
    call (fun d => (Ok (f d), d)) db = (r, db') ->
    sameData db db'
    /\ (faults db = [] -> db' = db)
    /\ (r = Ok (f db) \/ (r = Err ErrDriver /\ faults db <> [])).
Proof.
  intros A f db r db' Hf. pattern (call (fun d => (Ok (f d), d)) db). apply call_ind.
  - intros db1 Hs Hq E. inversion E; subst. rewrite (Hf _ _ Hs). auto.
  - intros db1 Hs Hne E. inversion E; subst.
    split; [assumption|]. split; [intros H; now elim Hne|]. now right.
Qed.

Lemma filter_nonempty :
  forall (A : Type) (f : A -> bool) (l : list A),
    (0 <? Datatypes.length (filter f l))%nat = true <-> exists x, In x l /\ f x = true.
Proof.
  intros A f l. induction l as [|a l IH]; simpl.
  - split; [discriminate|]. intros (x & [] & _).
  - destruct (f a) eqn:E; simpl.
    + split; [|reflexivity]. intros _. exists a. auto.
    + rewrite IH. split.
      * intros (x & Hin & Hx). exists x. auto.
      * intros (x & [->|Hin] & Hx); [congruence|]. exists x. auto.
Qed.

Lemma Count_contacts_spec :
  forall where_ db r db',
    Count_contacts where_ db = (r, db') ->
    sameData db db'
    /\ (faults db = [] -> db' = db)
    /\ (r = Ok (Datatypes.length
                  (filter (fun x => isNull (ContactRow.deleted_at x) && where_ x) (contacts db)))
        \/ (r = Err ErrDriver /\ faults db <> [])).
Proof.
  intros where_ db r db' E. unfold Count_contacts in E.
  apply (query_spec _ (fun d => Datatypes.length
            (filter (fun x => isNull (ContactRow.deleted_at x) && where_ x) (contacts d)))) in E;
    [assumption|].
  intros d d' (H & _). now rewrite H.
Qed.

Lemma Count_phones_spec :
  forall where_ db r db',
    Count_phones where_ db = (r, db') ->
    sameData db db'
    /\ (faults db = [] -> db' = db)
    /\ (r = Ok (Datatypes.length
                  (filter (fun x => isNull (Phone.DeletedAt x) && where_ x) (phones db)))
        \/ (r = Err ErrDriver /\ faults db <> [])).
Proof.
  intros where_ db r db' E. unfold Count_phones in E.
  apply (query_spec _ (fun d => Datatypes.length
            (filter (fun x => isNull (Phone.DeletedAt x) && where_ x) (phones d)))) in E;
    [assumption|].
  intros d d' (_ & H & _). now rewrite H.
Qed.

Lemma isNull_true : forall d, isNull d = true <-> d = None.
Proof. intros [x|]; simpl; split; congruence. Qed.

(** What the first query of [CheckDuplicatePhone] counts. *)
Lemma primary_query :
  forall db p ex,
    (exists r, In r (contacts db)
               /\ (isNull (ContactRow.deleted_at r)
                   && (if (0 <? ex)%N
                       then fun r => String.eqb (ContactRow.primary_phone r) p
                                     && negb (ContactRow.id r =? ex)%N
                       else fun r => String.eqb (ContactRow.primary_phone r) p) r) = true)
    <-> exists r, In r (contacts db) /\ ContactRow.deleted_at r = None
                  /\ (ex <> 0%N -> ContactRow.id r <> ex) /\ ContactRow.primary_phone r = p.
Proof.
  intros db p ex. split; intros (r & Hin & H); exists r; (split; [assumption|]).
  - apply andb_prop in H as [Hn H]. apply isNull_true in Hn.
    destruct (0 <? ex)%N eqn:E.
    + apply andb_prop in H as [Hp Hid]. apply String.eqb_eq in Hp.
      apply negb_true_iff, N.eqb_neq in Hid. auto.
    + apply String.eqb_eq in H. apply N.ltb_ge in E. repeat split; auto. lia.
  - destruct H as (Hn & Hid & Hp). apply andb_true_intro. split; [now apply isNull_true|].
    apply String.eqb_eq in Hp. destruct (0 <? ex)%N eqn:E; [|assumption].
    rewrite Hp. simpl. apply negb_true_iff, N.eqb_neq, Hid. apply N.ltb_lt in E. lia.
Qed.

Lemma additional_query :
  forall db p ex,
    (exists q, In q (phones db)
               /\ (isNull (Phone.DeletedAt q)
                   && (if (0 <? ex)%N
                       then fun q => String.eqb (Phone.Number q) p
                                     && negb (Phone.ContactID q =? ex)%N
                       else fun q => String.eqb (Phone.Number q) p) q) = true)
    <-> exists q, In q (phones db) /\ Phone.DeletedAt q = None
                  /\ (ex <> 0%N -> Phone.ContactID q <> ex) /\ Phone.Number q = p.
Proof.
  intros db p ex. split; intros (r & Hin & H); exists r; (split; [assumption|]).
  - apply andb_prop in H as [Hn H]. apply isNull_true in Hn.
    destruct (0 <? ex)%N eqn:E.
    + apply andb_prop in H as [Hp Hid]. apply String.eqb_eq in Hp.
      apply negb_true_iff, N.eqb_neq in Hid. auto.
    + apply String.eqb_eq in H. apply N.ltb_ge in E. repeat split; auto. lia.
  - destruct H as (Hn & Hid & Hp). apply andb_true_intro. split; [now apply isNull_true|].
    apply String.eqb_eq in Hp. destruct (0 <? ex)%N eqn:E; [|assumption].
    rewrite Hp. simpl. apply negb_true_iff, N.eqb_neq, Hid. apply N.ltb_lt in E. lia.
Qed.

Lemma phoneOfOther_split :
  forall db ex p,
    phoneOfOther db ex p
    <-> (exists r, In r (contacts db) /\ ContactRow.deleted_at r = None
                   /\ (ex <> 0%N -> ContactRow.id r <> ex) /\ ContactRow.primary_phone r = p)
        \/ (exists q, In q (phones db) /\ Phone.DeletedAt q = None
                      /\ (ex <> 0%N -> Phone.ContactID q <> ex) /\ Phone.Number q = p).
Proof.
  intros db ex p. unfold phoneOfOther, phoneOf. split.
  - intros (owner & Hex & [(r & Hin & Hn & Hid & Hp)|(q & Hin & Hn & Hid & Hp)]); subst owner.
    + left. exists r. auto.
    + right. exists q. auto.
  - intros [(r & Hin & Hn & Hid & Hp)|(q & Hin & Hn & Hid & Hp)].
    + exists (ContactRow.id r). split; [assumption|]. left. exists r. auto.
    + exists (Phone.ContactID q). split; [assumption|]. right. exists q. auto.
Qed.


(** [CheckDuplicatePhone] decides [phoneOfOther], unless the store fails. *)
Lemma CheckDuplicatePhone_spec :
  forall p ex db r db',
    Gorm_CheckDuplicatePhone p ex db = (r, db') ->
    sameData db db'
    /\ (faults db = [] -> db' = db)
    /\ ((exists b, r = Ok b /\ (b = true <-> phoneOfOther db ex p))
        \/ (r = Err ErrDriver /\ faults db <> [])).
Proof.
  intros p ex db r db' E. unfold Gorm_CheckDuplicatePhone, bind in E.
  match type of E with context [Count_contacts ?w db] =>
    destruct (Count_contacts w db) as [r1 db1] eqn:E1 end.
  apply Count_contacts_spec in E1 as (Hs1 & Hq1 & [-> | [-> Hne]]).
  2:{ inversion E; subst. auto. }
  match type of E with context [(0 <? ?n)%nat] => destruct (0 <? n)%nat eqn:Hc end.
  - inversion E; subst. split; [assumption|]. split; [assumption|]. left.
    exists true. split; [reflexivity|]. split; [|reflexivity]. intros _.
    apply phoneOfOther_split. left. apply primary_query. now apply filter_nonempty.
  - match type of E with context [Count_phones ?w db1] =>
      destruct (Count_phones w db1) as [r2 db2] eqn:E2 end.
    apply Count_phones_spec in E2 as (Hs2 & Hq2 & [-> | [-> Hne]]).
    + inversion E; subst. split; [eapply sameData_trans; eauto|].
      split; [intros H; rewrite <- (Hq1 H); apply Hq2; now rewrite (Hq1 H)|].
      left. eexists. split; [reflexivity|].
      rewrite filter_nonempty, phoneOfOther_split.
      destruct Hs1 as (Hc1 & Hp1 & _). rewrite Hp1.
      rewrite <- (additional_query db p ex). split; [auto|].
      intros [H|H]; [|assumption].
      apply primary_query, filter_nonempty in H. congruence.
    + inversion E; subst. split; [eapply sameData_trans; eauto|].
      split; [intros H; rewrite <- (Hq1 H); apply Hq2; now rewrite (Hq1 H)|].
      right. split; [reflexivity|]. intros H. apply Hne. now rewrite (Hq1 H).
Qed.

Lemma firstById_In : forall rows r, firstById rows = Some r -> In r rows.
Proof.
  induction rows as [|x rows IH]; simpl; intros r H; [discriminate|].
  destruct (firstById rows) as [m|].
  - destruct (ContactRow.id x <=? ContactRow.id m)%N; inversion H; subst; auto.
  - inversion H; subst; auto.
Qed.

Lemma firstById_None : forall rows, firstById rows = None -> rows = [].
Proof.
  destruct rows as [|x rows]; simpl; [reflexivity|].
  destruct (firstById rows) as [m|]; [|discriminate].
  destruct (ContactRow.id x <=? ContactRow.id m)%N; discriminate.
Qed.

Lemma preload_sameData : forall db db' r, sameData db db' -> preload db' r = preload db r.
Proof. intros db db' r (_ & H & _). unfold preload. now rewrite H. Qed.

(** [First] with a preload: the contact returned is a visible row that meets
    the condition, with the visible phones that point to it. *)
Lemma First_preload_spec :
  forall where_ db r db',
    First_preload where_ db = (r, db') ->
    sameData db db'
    /\ (faults db = [] -> db' = db)
    /\ ((exists row, r = Ok (preload db row) /\ In row (contacts db)
                     /\ ContactRow.deleted_at row = None /\ where_ row = true)
        \/ (r = Err ErrRecordNotFound
            /\ forall row, In row (contacts db) -> ContactRow.deleted_at row = None ->
                           where_ row = false)
        \/ (r = Err ErrDriver /\ faults db <> [])).
Proof.
  intros where_ db r db'. unfold First_preload.
  match goal with |- call ?stmt db = _ -> _ => pattern (call stmt db) end.
  apply call_ind.
  - intros db1 Hs Hq.
    destruct Hs as (Hc & Hp & Hrest). rewrite Hc.
    destruct (firstById _) as [row|] eqn:F; intros E; inversion E; subst.
    + split; [repeat split; tauto|]. split; [assumption|]. left. exists row.
      apply firstById_In, filter_In in F as (Hin & Hw). apply andb_prop in Hw as [Hn Hw].
      split; [f_equal; apply preload_sameData; repeat split; tauto|].
      split; [assumption|]. split; [now apply isNull_true|assumption].
    + split; [repeat split; tauto|]. split; [assumption|]. right. left.
      split; [reflexivity|]. intros row Hin Hn.
      apply firstById_None in F.
      destruct (where_ row) eqn:W; [|reflexivity].
      assert (Hf : In row (filter (fun r => isNull (ContactRow.deleted_at r) && where_ r)
                                  (contacts db))).
      { apply filter_In. split; [assumption|]. rewrite W. apply isNull_true in Hn. now rewrite Hn. }
      rewrite F in Hf. destruct Hf.
  - intros db1 Hs Hne E. inversion E; subst.
    split; [assumption|]. split; [intros H; now elim Hne|]. right. right. auto.
Qed.







(** ** Duplicate phone across contacts *)




(** ** The store: writes *)








Lemma Delete_phones_unscoped_spec :
  forall where_ db r db',
    Delete_phones_unscoped where_ db = (r, db') ->
    contacts db' = contacts db
    /\ (faults db = [] -> faults db' = [])
    /\ ((r = Ok tt /\ phones db' = filter (fun p => negb (where_ p)) (phones db))
        \/ (r = Err ErrDriver /\ faults db <> [] /\ phones db' = phones db)).
Proof.
  intros where_ db r db'. unfold Delete_phones_unscoped.
  match goal with |- call ?stmt db = _ -> _ => pattern (call stmt db) end.
  apply call_ind.
  - intros db1 (Hc & Hp & _) Hq E. inversion E; subst; simpl. split; [assumption|].
    split; [intros H; now rewrite (Hq H)|]. left. now rewrite Hp.
  - intros db1 (Hc & Hp & _) Hne E. inversion E; subst.
    split; [assumption|]. split; [intros H; now elim Hne|]. right. auto.
Qed.

Lemma Delete_contact_unscoped_spec :
  forall id db r db',
    Delete_contact_unscoped id db = (r, db') ->
    phones db' = phones db
    /\ (faults db = [] -> faults db' = [])
    /\ ((r = Ok tt /\ contacts db' = filter (fun x => negb (ContactRow.id x =? id)%N) (contacts db))
        \/ (r = Err ErrDriver /\ faults db <> [] /\ contacts db' = contacts db)).
Proof.
  intros id db r db'. unfold Delete_contact_unscoped.
  match goal with |- call ?stmt db = _ -> _ => pattern (call stmt db) end.
  apply call_ind.
  - intros db1 (Hc & Hp & _) Hq E. inversion E; subst; simpl. split; [assumption|].
    split; [intros H; now rewrite (Hq H)|]. left. now rewrite Hc.
  - intros db1 (Hc & Hp & _) Hne E. inversion E; subst.
    split; [assumption|]. split; [intros H; now elim Hne|]. right. auto.
Qed.


(** ** Repository errors and HTTP statuses *)

(** C3, as stated, fails: the store fails during the lookup of an update (an
    error that is neither a validation error nor the absence of the record) and
    the answer is 404, not 500. *)
Lemma store_failure_on_lookup_is_answered_404 :
  contactExists annDB_failing 1
  /\ FindByID 1%N annDB_failing = (Err ErrDriver, annDB)
  /\ fst (handlers.UpdateContact "1" (Bound annRequest) annDB_failing)
     = mkResponse StatusNotFound (H_error "Contact not found").
Proof.
  split; [|split; reflexivity]. exists annRow. repeat split. now left.
Qed.

(** C3, amended. Whatever the repository and whatever the error: a failing
    List, Create, Update, Delete or ImportContacts surfaces as status 500; a
    failing FindByID surfaces as status 404 on GET, PUT and DELETE
    /api/contacts/:id; a failing FindByEmail is not surfaced, the handler goes
    on to Create or Update and answers by their outcome. *)
Theorem repository_errors_by_endpoint :
  forall (St : Type) (repo : ContactRepository St) (st : St),
    (forall err st',
        List st = (Err err, st') ->
        fst (handlers.ListContacts st)
        = mkResponse StatusInternalServerError (H_error "Failed to fetch contacts"))
    /\ (forall idParam id err st',
           ParseUint idParam = Some id ->
           FindByID id st = (Err err, st') ->
           fst (handlers.GetContact idParam st)
           = mkResponse StatusNotFound (H_error "Contact not found")
           /\ fst (handlers.DeleteContact idParam st)
              = mkResponse StatusNotFound (H_error "Contact not found")
           /\ forall req,
               fst (handlers.UpdateContact idParam (Bound req) st)
               = mkResponse StatusNotFound (H_error "Contact not found"))
    /\ (forall idParam id found st1 err st2,
           ParseUint idParam = Some id ->
           FindByID id st = (Ok found, st1) ->
           Delete id st1 = (Some err, st2) ->
           fst (handlers.DeleteContact idParam st)
           = mkResponse StatusInternalServerError (H_error "Failed to delete contact"))
    /\ (forall req err0 st1 created outcome st2,
           Validate (requestContact req) = None ->
           FindByEmail (CreateContactRequest.Email req) st = (Err err0, st1) ->
           Create (FormatPhoneNumbers (requestContact req)) st1 = ((created, outcome), st2) ->
           fst (handlers.CreateContact (Bound req) st)
           = match outcome with
             | Some _ => mkResponse StatusInternalServerError (H_error "Failed to create contact")
             | None => mkResponse StatusCreated (JSON_contact created)
             end)
    /\ (forall idParam id req existing st1 lookup st2 updated outcome st3,
           ParseUint idParam = Some id ->
           FindByID id st = (Ok existing, st1) ->
           Validate (overwritten existing req) = None ->
           FindByEmail (CreateContactRequest.Email req) st1 = (lookup, st2) ->
           match lookup with
           | Ok found => Contact.ID found = Contact.ID existing
           | Err _ => True
           end ->
           Update (FormatPhoneNumbers (overwritten existing req)) st2
           = ((updated, outcome), st3) ->
           fst (handlers.UpdateContact idParam (Bound req) st)
           = match outcome with
             | Some _ => mkResponse StatusInternalServerError (H_error "Failed to update contact")
             | None => mkResponse StatusOK (JSON_contact updated)
             end)
    /\ (forall Filename rows err st',
           HasSuffix Filename ".csv" = true ->
           ImportContacts (contactsToImport rows) st = (Some err, st') ->
           fst (handlers.ImportContacts (FileHeader Filename (Bytes (Some rows))) st)
           = mkResponse StatusInternalServerError (H_error "Failed to import contacts")).
Proof.
  intros St repo st. repeat apply conj.
  - intros err st' E. unfold handlers.ListContacts, bind. now rewrite E.
  - intros idParam id err st' Hid E. repeat apply conj; [| |intros req].
    + unfold handlers.GetContact. rewrite Hid. unfold bind. now rewrite E.
    + unfold handlers.DeleteContact. rewrite Hid. unfold bind. now rewrite E.
    + unfold handlers.UpdateContact. rewrite Hid. unfold bind. now rewrite E.
  - intros idParam id found st1 err st2 Hid E1 E2.
    unfold handlers.DeleteContact. rewrite Hid. unfold bind. now rewrite E1, E2.
  - intros req err0 st1 created outcome st2 Hv E1 E2.
    unfold handlers.CreateContact. fold (requestContact req). rewrite Hv.
    unfold bind. rewrite E1, E2. simpl. now destruct outcome.
  - intros idParam id req existing st1 lookup st2 updated outcome st3 Hid E0 Hv E1 Hown E2.
    unfold handlers.UpdateContact. rewrite Hid. unfold bind. rewrite E0.
    change (Contact.setAdditionalPhones _ _) with (overwritten existing req).
    rewrite Hv, E1.
    assert (Hc : match lookup with
                 | Ok found =>
                     negb (Contact.ID found
                           =? Contact.ID (FormatPhoneNumbers (overwritten existing req)))%N
                 | Err _ => false
                 end = false).
    { destruct lookup as [found|]; [|reflexivity]. simpl. rewrite Hown.
      now rewrite N.eqb_refl. }
    rewrite Hc, E2. simpl. now destruct outcome.
  - intros Filename rows err st' Hs E.
    unfold handlers.ImportContacts. rewrite Hs. simpl. unfold bind. now rewrite E.
Qed.

Lemma repository_errors_by_endpoint_witness :
  fst (handlers.GetContact "1" annDB_failing)
  = mkResponse StatusNotFound (H_error "Contact not found")
  /\ fst (handlers.CreateContact (Bound bobRequest) annDB_failing)
     = mkResponse StatusInternalServerError (H_error "Failed to create contact").
Proof.
  destruct (repository_errors_by_endpoint DB GormContactRepository annDB_failing)
    as (_ & Hfind & _ & Hcreate & _).
  split.
  - apply (Hfind "1" 1%N ErrDriver annDB); reflexivity.
  - apply (Hcreate bobRequest ErrDriver annDB (FormatPhoneNumbers (requestContact bobRequest))
                   (Some (errors_New "primary phone number already exists in another contact"))
                   annDB); reflexivity.
Defined.

(** ** GET /api/contacts/:id *)

Lemma First_preload_driver :
  forall where_ db,
    fst (First_preload where_ db) = Err ErrDriver <-> hd false (faults db) = true.
Proof.
  intros where_ db. unfold First_preload, call, tick.
  destruct (faults db) as [|[|] fs]; simpl; try destruct (firstById _); simpl;
    split; intros H; try reflexivity; discriminate.
Qed.

(** C7, as stated, fails: the contact exists and the answer is 404. *)
Lemma existing_contact_is_answered_404 :
  ParseUint "1" = Some 1%N
  /\ contactExists annDB_failing 1
  /\ fst (handlers.GetContact "1" annDB_failing)
     = mkResponse StatusNotFound (H_error "Contact not found").
Proof.
  split; [reflexivity|]. split; [|reflexivity]. exists annRow. repeat split. now left.
Qed.

(** C7, amended. GET /api/contacts/:id, for a well-formed numeric id, returns
    404 exactly when the lookup fails, that is when no contact with that id
    exists or when the store fails on the lookup; otherwise it returns 200 with
    the contact and its nested additional phones.  The tables are not written. *)
Theorem get_contact_404_iff_lookup_fails :
  forall (idParam : string) (id : N) (db : DB),
    ParseUint idParam = Some id ->
    let out := handlers.GetContact idParam db in
    sameData db (snd out)
    /\ (Status (fst out) = StatusNotFound
        <-> ~ contactExists db id \/ hd false (faults db) = true)
    /\ (Status (fst out) <> StatusNotFound ->
        exists row,
          In row (contacts db) /\ ContactRow.id row = id /\ ContactRow.deleted_at row = None
          /\ fst out
             = mkResponse StatusOK
                 (JSON_contact
                    (contactOf row
                       (filter (fun p => isNull (Phone.DeletedAt p) && (Phone.ContactID p =? id)%N)
                               (phones db))))).
Proof.
  intros idParam id db Hid out. subst out.
  destruct (handlers.GetContact idParam db) as [resp dbf] eqn:E. simpl.
  unfold handlers.GetContact in E. rewrite Hid in E. unfold bind in E.
  pose proof (First_preload_driver (fun r => (ContactRow.id r =? id)%N) db) as Hdrv.
  destruct (FindByID id db) as [r db1] eqn:E1.
  change (FindByID id db) with (First_preload (fun r => (ContactRow.id r =? id)%N) db) in E1.
  rewrite E1 in Hdrv. simpl in Hdrv.
  apply First_preload_spec in E1 as (Hs & _ & [(row & -> & Hin & Hn & Hw)|[[-> Hno]|[-> Hne]]]);
    inversion E; subst resp dbf; simpl; (split; [assumption|]).
  - apply N.eqb_eq in Hw. split.
    + split; [discriminate|]. intros [Hno|Hf].
      * exfalso. apply Hno. exists row. auto.
      * apply Hdrv in Hf. discriminate.
    + intros _. exists row. repeat (split; [assumption|]). unfold preload. now rewrite Hw.
  - split; [|intros H; now elim H]. split; [|reflexivity]. intros _. left.
    intros (row & Hin & Hrow & Hn). specialize (Hno row Hin Hn).
    apply N.eqb_neq in Hno. contradiction.
  - split; [|intros H; now elim H]. split; [|reflexivity]. intros _. right. now apply Hdrv.
Qed.

Lemma get_contact_404_iff_lookup_fails_witness :
  fst (handlers.GetContact "1" annDB)
  = mkResponse StatusOK (JSON_contact (contactOf annRow [annPhone]))
  /\ Status (fst (handlers.GetContact "2" annDB)) = StatusNotFound.
Proof.
  split.
  - destruct (get_contact_404_iff_lookup_fails "1" 1%N annDB eq_refl) as (_ & _ & H).
    destruct H as (row & [<-|[]] & _ & _ & H); [discriminate|]. exact H.
  - destruct (get_contact_404_iff_lookup_fails "2" 2%N annDB eq_refl) as (_ & H & _).
    apply H. left. intros (row & [<-|[]] & Hrow & _). discriminate.
Defined.

(** ** DELETE /api/contacts/:id *)

Lemma filter_idem :
  forall (A : Type) (f : A -> bool) (l : list A), filter f (filter f l) = filter f l.
Proof.
  intros A f l. induction l as [|a l IH]; simpl; [reflexivity|].
  destruct (f a) eqn:E; simpl; [rewrite E; f_equal|]; assumption.
Qed.

(** [Delete]: on success the two filters have run; in every case the rows of
    the other contacts are as they were. *)
Lemma Gorm_Delete_spec :
  forall id db e db',
    Gorm_Delete id db = (e, db') ->
    let others := fun r => negb (ContactRow.id r =? id)%N in
    let others' := fun p => negb (Phone.ContactID p =? id)%N in
    (e = None -> contacts db' = filter others (contacts db)
                 /\ phones db' = filter others' (phones db))
    /\ filter others (contacts db') = filter others (contacts db)
    /\ filter others' (phones db') = filter others' (phones db)
    /\ (faults db = [] -> e = None).
Proof.
  intros id db e db' E others others'. unfold Gorm_Delete, bind in E.
  destruct (Delete_phones_unscoped (fun p => (Phone.ContactID p =? id)%N) db) as [r1 db1] eqn:E1.
  apply Delete_phones_unscoped_spec in E1 as (Hc1 & Hq1 & [[-> Hp1]|(-> & Hne & Hp1)]).
  - destruct (Delete_contact_unscoped id db1) as [r2 db2] eqn:E2.
    apply Delete_contact_unscoped_spec in E2 as (Hp2 & Hq2 & [[-> Hc2]|(-> & Hne & Hc2)]);
      inversion E; subst e db'; rewrite Hc2, Hp2, Hp1, Hc1.
    + split; [auto|]. fold others others'. rewrite !filter_idem. auto.
    + split; [discriminate|]. fold others others'. rewrite !filter_idem.
      repeat split. intros H. elim Hne. auto.
  - inversion E; subst e db'. rewrite Hc1, Hp1. split; [discriminate|].
    repeat split. intros H. now elim Hne.
Qed.

(** C6. DELETE /api/contacts/:id on an existing contact removes (hard delete:
    the rows leave the tables, whatever their deleted_at) the contact row and
    every phone row whose contact_id is that id, and leaves every other contact
    row and phone row unchanged.  Stated in three parts: whenever the answer is
    200 the two tables are the former ones without those rows; in every case
    the rows of the other contacts are unchanged; and on an existing contact
    with a working store the answer is 200. *)
Theorem delete_contact_removes_its_rows_only :
  forall (idParam : string) (id : N) (db : DB),
    ParseUint idParam = Some id ->
    let out := handlers.DeleteContact idParam db in
    let others := fun r => negb (ContactRow.id r =? id)%N in
    let others' := fun p => negb (Phone.ContactID p =? id)%N in
    (Status (fst out) = StatusOK ->
       contacts (snd out) = filter others (contacts db)
       /\ phones (snd out) = filter others' (phones db)
       /\ (forall r, In r (contacts (snd out)) -> ContactRow.id r <> id)
       /\ (forall p, In p (phones (snd out)) -> Phone.ContactID p <> id))
    /\ (filter others (contacts (snd out)) = filter others (contacts db)
        /\ filter others' (phones (snd out)) = filter others' (phones db))
    /\ (contactExists db id -> faults db = [] ->
        fst out = mkResponse StatusOK (H_message "Contact deleted successfully")).
Proof.
  intros idParam id db Hid out others others'. subst out.
  destruct (handlers.DeleteContact idParam db) as [resp dbf] eqn:E. simpl.
  unfold handlers.DeleteContact in E. rewrite Hid in E. unfold bind in E.
  destruct (FindByID id db) as [r db1] eqn:E1.
  change (FindByID id db) with (First_preload (fun r => (ContactRow.id r =? id)%N) db) in E1.
  apply First_preload_spec in E1 as (Hs & Hq & Hr). destruct Hs as (Hc & Hp & _).
  destruct r as [found|err].
  - destruct (Delete id db1) as [e db2] eqn:E2.
    change (Delete id db1) with (Gorm_Delete id db1) in E2.
    apply Gorm_Delete_spec in E2 as (Hok & Hfc & Hfp & Hquiet).
    fold others in Hok, Hfc. fold others' in Hok, Hfp. rewrite Hc, Hp in *.
    destruct e as [err|]; inversion E; subst resp dbf; simpl.
    + split; [discriminate|]. split; [auto|]. intros _ H.
      rewrite (Hq H) in Hquiet. specialize (Hquiet H). discriminate.
    + destruct (Hok eq_refl) as (Hcs & Hps). split; [|auto]. intros _.
      split; [assumption|]. split; [assumption|]. rewrite Hcs, Hps. split.
      * intros x Hx. apply filter_In in Hx as (_ & Hx).
        now apply negb_true_iff, N.eqb_neq in Hx.
      * intros x Hx. apply filter_In in Hx as (_ & Hx).
        now apply negb_true_iff, N.eqb_neq in Hx.
  - inversion E; subst resp dbf; simpl. rewrite Hc, Hp.
    split; [discriminate|]. split; [auto|]. intros (row & Hin & Hrow & Hn) H. exfalso.
    destruct Hr as [(? & ? & _)|[[_ Hno]|[_ Hne]]]; [discriminate| |now elim Hne].
    specialize (Hno row Hin Hn). apply N.eqb_neq in Hno. contradiction.
Qed.

Lemma delete_contact_removes_its_rows_only_witness :
  fst (handlers.DeleteContact "1" annBobDB)
  = mkResponse StatusOK (H_message "Contact deleted successfully")
  /\ contacts (snd (handlers.DeleteContact "1" annBobDB)) = [bobRow]
  /\ phones (snd (handlers.DeleteContact "1" annBobDB)) = [bobPhone].
Proof.
  destruct (delete_contact_removes_its_rows_only "1" 1%N annBobDB eq_refl)
    as (Heffect & _ & Hok).
  assert (Hex : contactExists annBobDB 1).
  { exists annRow. repeat split. now left. }
  specialize (Hok Hex eq_refl).
  assert (Hst : Status (fst (handlers.DeleteContact "1" annBobDB)) = StatusOK)
    by (rewrite Hok; reflexivity).
  destruct (Heffect Hst) as (Hc & Hp & _).
  split; [exact Hok|]. split; [exact Hc|exact Hp].
Defined.

(** ** POST /api/contacts *)







(** ** POST /api/contacts/import *)






(** ** PUT /api/contacts/:id *)










(** ** The invariant of the stored data *)




















(* ================================================================== *)
(** * Part III. Further properties of the code *)
(* ================================================================== *)

(** ** package models *)

Lemma existsb_eqb_In :
  forall k seen, existsb (String.eqb k) seen = true <-> In k seen.
Proof.
  intros k seen. rewrite existsb_exists. split.
  - intros (x & Hin & Hx). apply String.eqb_eq in Hx. now subst.
  - intros H. exists k. split; [assumption|apply String.eqb_refl].
Qed.

Lemma checkPhoneSet_None :
  forall l seen,
    checkPhoneSet seen l = None
    <-> NoDup (map phoneKey l) /\ forall p, In p l -> ~ In (phoneKey p) seen.
Proof.
  induction l as [|x l IH]; intros seen; simpl.
  - split; [intros _; split; [constructor|intros p []]|reflexivity].
  - destruct (existsb (String.eqb (phoneKey x)) seen) eqn:E.
    + apply existsb_eqb_In in E. split; [discriminate|].
      intros (_ & H). elim (H x); auto.
    + assert (Hx : ~ In (phoneKey x) seen).
      { intros H. apply existsb_eqb_In in H. congruence. }
      rewrite IH, NoDup_cons_iff. split.
      * intros (Hnd & Hseen). split; [split; [|assumption]|].
        -- intros Hin. apply in_map_iff in Hin as (p & Hp & Hin).
           apply (Hseen p Hin). left. now symmetry.
        -- intros p [<-|Hin]; [assumption|]. intros H. apply (Hseen p Hin). now right.
      * intros ((Hnotin & Hnd) & Hseen). split; [assumption|].
        intros p Hin [Heq|H]; [|apply (Hseen p); auto].
        apply Hnotin. rewrite Heq. now apply in_map.
Qed.

(** X1. [Validate] accepts a contact exactly when its first and last name are
    not blank after trimming, its email matches the pattern, its primary phone
    has 10 to 15 digits, and no two additional phones have the same key
    (number, "-", type); the error it returns is one of five messages. *)
Theorem Validate_accepts_iff :
  forall c : Contact.t,
    (Validate c = None
     <-> TrimSpace (Contact.FirstName c) <> ""
         /\ TrimSpace (Contact.LastName c) <> ""
         /\ isValidEmail (Contact.Email c) = true
         /\ isValidPhone (Contact.PrimaryPhone c) = true
         /\ NoDup (map phoneKey (Contact.AdditionalPhones c)))
    /\ (forall err, Validate c = Some err ->
          In err [errors_New "first name is required"; errors_New "last name is required";
                  errors_New "invalid email format"; errors_New "invalid primary phone format";
                  errors_New "duplicate phone numbers are not allowed"]).
Proof.
  intros c. unfold Validate.
  destruct (String.eqb (TrimSpace (Contact.FirstName c)) "") eqn:Hf.
  { apply String.eqb_eq in Hf. split.
    - split; [discriminate|]. intros (H & _). contradiction.
    - intros err H. inversion H. simpl. auto. }
  destruct (String.eqb (TrimSpace (Contact.LastName c)) "") eqn:Hl.
  { apply String.eqb_eq in Hl. split.
    - split; [discriminate|]. intros (_ & H & _). contradiction.
    - intros err H. inversion H. simpl. auto. }
  apply String.eqb_neq in Hf, Hl.
  destruct (isValidEmail (Contact.Email c)) eqn:He; simpl.
  2:{ split.
      - split; [discriminate|]. intros (_ & _ & H & _). discriminate.
      - intros err H. inversion H. simpl. auto. }
  destruct (isValidPhone (Contact.PrimaryPhone c)) eqn:Hp; simpl.
  2:{ split.
      - split; [discriminate|]. intros (_ & _ & _ & H & _). discriminate.
      - intros err H. inversion H. simpl. auto 6. }
  split.
  - rewrite checkPhoneSet_None. split.
    + intros (H & _). auto.
    + intros (_ & _ & _ & _ & H). split; [assumption|]. intros p _ [].
  - intros err H. right. right. right. right. left.
    revert H. generalize (@nil string).
    induction (Contact.AdditionalPhones c) as [|x l IH]; intros seen H; simpl in H;
      [discriminate|].
    destruct (existsb (String.eqb (phoneKey x)) seen); [now inversion H|].
    now apply IH with (phoneKey x :: seen).
Qed.

Lemma Validate_accepts_iff_witness :
  Validate (requestContact annRequest) = None
  /\ NoDup (map phoneKey (CreateContactRequest.AdditionalPhones twoTypesRequest)).
Proof.
  split; [reflexivity|].
  apply (proj1 (proj1 (Validate_accepts_iff (requestContact twoTypesRequest))) eq_refl).
Defined.

Lemma digitsOnly_fixed :
  forall s, digitsOnly s = true -> ReplaceAllString_empty nonDigit s = s.
Proof.
  induction s as [|c s IH]; simpl; intros H; [reflexivity|].
  apply andb_prop in H as [Hc Hs]. unfold nonDigit at 1. rewrite Hc. simpl.
  now rewrite (IH Hs).
Qed.



Lemma formatPhoneNumber_idem :
  forall s, formatPhoneNumber (formatPhoneNumber s) = formatPhoneNumber s.
Proof. intros s. unfold formatPhoneNumber. apply digitsOnly_fixed, cleaned_digitsOnly. Qed.

Lemma isValidPhone_formatted :
  forall s, isValidPhone (formatPhoneNumber s) = isValidPhone s.
Proof.
  intros s. unfold isValidPhone, formatPhoneNumber.
  now rewrite (digitsOnly_fixed _ (cleaned_digitsOnly s)).
Qed.

Lemma Validate_None_fields :
  forall c,
    Validate c = None ->
    String.eqb (TrimSpace (Contact.FirstName c)) "" = false
    /\ String.eqb (TrimSpace (Contact.LastName c)) "" = false
    /\ isValidEmail (Contact.Email c) = true
    /\ isValidPhone (Contact.PrimaryPhone c) = true.
Proof.
  intros c H. unfold Validate in H.
  destruct (String.eqb (TrimSpace (Contact.FirstName c)) ""); [discriminate|].
  destruct (String.eqb (TrimSpace (Contact.LastName c)) ""); [discriminate|].
  destruct (isValidEmail (Contact.Email c)); [|discriminate].
  destruct (isValidPhone (Contact.PrimaryPhone c)); [|discriminate].
  repeat split.
Qed.

Lemma FormatPhoneNumbers_idem :
  forall c, FormatPhoneNumbers (FormatPhoneNumbers c) = FormatPhoneNumbers c.
Proof.
  intros c. unfold FormatPhoneNumbers. simpl.
  rewrite formatPhoneNumber_idem. unfold Contact.setAdditionalPhones. simpl. f_equal.
  rewrite map_map. apply map_ext. intros p. unfold Phone.setNumber. simpl.
  now rewrite formatPhoneNumber_idem.
Qed.

(** X3. [FormatPhoneNumbers] changes the numbers only: key, names, email, and
    the type, key and contact of every additional phone are kept; it is
    idempotent; and a contact that passed [Validate] still passes every check
    of [Validate] afterwards except, possibly, the duplicate check (two
    additional numbers may become equal once normalised). *)
Theorem FormatPhoneNumbers_keeps_validity :
  forall c : Contact.t,
    FormatPhoneNumbers (FormatPhoneNumbers c) = FormatPhoneNumbers c
    /\ Contact.ID (FormatPhoneNumbers c) = Contact.ID c
    /\ Contact.FirstName (FormatPhoneNumbers c) = Contact.FirstName c
    /\ Contact.LastName (FormatPhoneNumbers c) = Contact.LastName c
    /\ Contact.Email (FormatPhoneNumbers c) = Contact.Email c
    /\ map (fun p => (Phone.ID p, Phone.ContactID p, Phone.Type_ p, Phone.DeletedAt p))
           (Contact.AdditionalPhones (FormatPhoneNumbers c))
       = map (fun p => (Phone.ID p, Phone.ContactID p, Phone.Type_ p, Phone.DeletedAt p))
             (Contact.AdditionalPhones c)
    /\ (Validate c = None ->
        Validate (FormatPhoneNumbers c) = None
        \/ Validate (FormatPhoneNumbers c)
           = Some (errors_New "duplicate phone numbers are not allowed")).
Proof.
  intros c. split; [apply FormatPhoneNumbers_idem|].
  repeat (split; [reflexivity|]). split.
  - simpl. rewrite map_map. reflexivity.
  - intros Hv. apply Validate_None_fields in Hv as (Hf & Hl & He & Hp).
    destruct (Validate (FormatPhoneNumbers c)) as [err|] eqn:E; [|now left]. right.
    unfold Validate in E. simpl in E.
    rewrite Hf, Hl, He in E. simpl in E.
    rewrite isValidPhone_formatted, Hp in E. simpl in E.
    revert E. generalize (@nil string).
    induction (Contact.AdditionalPhones c) as [|x l IH]; intros seen H; simpl in H;
      [discriminate|].
    match type of H with context [existsb ?f seen] => destruct (existsb f seen) end;
      [congruence|].
    eapply IH. exact H.
Qed.

Lemma FormatPhoneNumbers_keeps_validity_witness :
  Validate (FormatPhoneNumbers (requestContact annRequest)) = None
  \/ Validate (FormatPhoneNumbers (requestContact annRequest))
     = Some (errors_New "duplicate phone numbers are not allowed").
Proof.
  apply (proj2 (proj2 (proj2 (proj2 (proj2 (proj2
           (FormatPhoneNumbers_keeps_validity (requestContact annRequest)))))))).
  reflexivity.
Defined.

(** The second case of X3 does occur. *)
Example normalisation_can_create_a_duplicate :
  let c := Contact.mk 0 None "Ann" "Lee" "ann@example.com" "5551234567"
                      [Phone.mk 0 None 0 "555-0100" "home"; Phone.mk 0 None 0 "5550100" "home"] in
  Validate c = None
  /\ Validate (FormatPhoneNumbers c)
     = Some (errors_New "duplicate phone numbers are not allowed").
Proof. split; reflexivity. Qed.

(** *** The email pattern *)

Lemma dead_not_nullable : forall r, dead r = true -> nullable r = false.
Proof.
  induction r as [| |rs|r1 IH1 r2 IH2|r1 IH1 r2 IH2|r IH]; simpl; intros H;
    try discriminate; try reflexivity.
  - apply orb_prop in H as [H|H].
    + now rewrite (IH1 H).
    + rewrite (IH2 H). apply andb_false_r.
  - apply andb_prop in H as [H1 H2]. now rewrite (IH1 H1), (IH2 H2).
Qed.

Lemma dead_deriv : forall c r, dead r = true -> dead (deriv c r) = true.
Proof.
  intros c. induction r as [| |rs|r1 IH1 r2 IH2|r1 IH1 r2 IH2|r IH]; simpl; intros H;
    try discriminate; try reflexivity.
  - destruct (nullable r1) eqn:N1; simpl.
    + apply orb_prop in H as [H|H].
      * rewrite (dead_not_nullable _ H) in N1. discriminate.
      * rewrite H, (IH2 H). now rewrite orb_true_r.
    + apply orb_prop in H as [H|H]; [now rewrite (IH1 H)|rewrite H; apply orb_true_r].
  - apply andb_prop in H as [H1 H2]. now rewrite (IH1 H1), (IH2 H2).
Qed.

Lemma dead_no_match : forall s r, dead r = true -> MatchString r s = false.
Proof.
  induction s as [|c s IH]; simpl; intros r H.
  - now apply dead_not_nullable.
  - apply IH. now apply dead_deriv.
Qed.

Lemma outside_alphabet_dead :
  forall c r, alphabet r c = false -> dead (deriv c r) = true.
Proof.
  intros c. induction r as [| |rs|r1 IH1 r2 IH2|r1 IH1 r2 IH2|r IH]; simpl; intros H;
    try reflexivity.
  - now rewrite H.
  - apply orb_false_elim in H as [H1 H2].
    destruct (nullable r1); simpl; rewrite (IH1 H1); [now rewrite (IH2 H2)|reflexivity].
  - apply orb_false_elim in H as [H1 H2]. now rewrite (IH1 H1), (IH2 H2).
  - now rewrite (IH H).
Qed.

Lemma alphabet_deriv :
  forall c c' r, alphabet (deriv c r) c' = true -> alphabet r c' = true.
Proof.
  intros c c'. induction r as [| |rs|r1 IH1 r2 IH2|r1 IH1 r2 IH2|r IH]; simpl; intros H;
    try discriminate.
  - destruct (inClass rs c); discriminate.
  - destruct (nullable r1); simpl in H.
    + apply orb_prop in H as [H|H].
      * apply orb_prop in H as [H|H]; [rewrite (IH1 H)|rewrite H, orb_true_r]; reflexivity.
      * rewrite (IH2 H). apply orb_true_r.
    + apply orb_prop in H as [H|H]; [rewrite (IH1 H)|rewrite H, orb_true_r]; reflexivity.
  - apply orb_prop in H as [H|H]; [rewrite (IH1 H)|rewrite (IH2 H), orb_true_r]; reflexivity.
  - apply orb_prop in H as [H|H]; [now apply IH|assumption].
Qed.

Lemma matched_bytes_in_alphabet :
  forall s r, MatchString r s = true -> allBytes (alphabet r) s = true.
Proof.
  induction s as [|c s IH]; simpl; intros r H; [reflexivity|].
  destruct (alphabet r c) eqn:A.
  - simpl. specialize (IH _ H). clear H. revert IH.
    induction s as [|d s IHs]; simpl; [reflexivity|]. intros H.
    apply andb_prop in H as [Hd Hs]. rewrite (alphabet_deriv _ _ _ Hd). simpl. now apply IHs.
  - rewrite (dead_no_match s _ (outside_alphabet_dead _ _ A)) in H. discriminate.
Qed.

Lemma allBytes_weaken :
  forall (p q : ascii -> bool) s,
    (forall c, p c = true -> q c = true) -> allBytes p s = true -> allBytes q s = true.
Proof.
  intros p q s Hpq. induction s as [|c s IH]; simpl; [reflexivity|].
  intros H. apply andb_prop in H as [Hc Hs]. now rewrite (Hpq c Hc), (IH Hs).
Qed.

Lemma emailPattern_alphabet : forall c, alphabet emailPattern c = true -> emailByte c = true.
Proof.
  intros c. unfold emailPattern, emailByte, emailLocal, emailDomain, emailAlpha, Plus, Lit.
  simpl. unfold inClass. simpl.
  repeat match goal with |- context [inRange ?a ?b c] =>
           destruct (inRange a b c); simpl; try reflexivity end;
    intros H; try discriminate; try reflexivity.
Qed.

(** X4. An email that [isValidEmail] accepts consists only of ASCII letters,
    digits and the characters . _ % + - @ (so it has no white space and no
    non-ASCII byte), and it contains an '@' and a '.'. *)
Theorem valid_email_shape :
  forall email : string,
    isValidEmail email = true ->
    allBytes emailByte email = true
    /\ hasByte "@" email = true
    /\ hasByte "." email = true.
Proof.
  intros email H. split; [|split].
  - apply allBytes_weaken with (alphabet emailPattern); [apply emailPattern_alphabet|].
    now apply matched_bytes_in_alphabet.
  - destruct (hasByte "@" email) eqn:E; [reflexivity|].
    rewrite (isValidEmail_has_at _ E) in H. discriminate.
  - destruct (hasByte "." email) eqn:E; [reflexivity|].
    unfold isValidEmail in H.
    rewrite (needs_no_match "."%char email emailPattern eq_refl E) in H. discriminate.
Qed.

Lemma valid_email_shape_witness :
  allBytes emailByte "ann.lee@example.com" = true
  /\ hasByte "@" "ann.lee@example.com" = true
  /\ hasByte "." "ann.lee@example.com" = true.
Proof. apply valid_email_shape. reflexivity. Defined.

(** ** package config *)

Lemma getEnvOrDefault_nonempty :
  forall Getenv key d, d <> "" -> getEnvOrDefault Getenv key d <> "".
Proof.
  intros Getenv key d Hd. unfold getEnvOrDefault.
  destruct (String.eqb (Getenv key) "") eqn:E; simpl; [assumption|].
  now apply String.eqb_neq.
Qed.

(** X5. Whatever the environment, [Load] returns no error and a configuration
    whose server port, run mode, database host, port, user and name are not
    empty (a variable that is unset or set to the empty string takes its
    default, a non-empty variable is taken as it is), and whose list of
    allowed origins has exactly one entry: the value of ALLOWED_ORIGINS, not
    split at commas, or the default. *)
Theorem Load_defaults :
  forall Getenv : string -> string,
    let cfg := fst (Load Getenv) in
    snd (Load Getenv) = None
    /\ ServerConfig.Port (Config.Server cfg) <> ""
    /\ ServerConfig.GinMode (Config.Server cfg) <> ""
    /\ DatabaseConfig.Host (Config.Database cfg) <> ""
    /\ DatabaseConfig.Port (Config.Database cfg) <> ""
    /\ DatabaseConfig.User (Config.Database cfg) <> ""
    /\ DatabaseConfig.DBName (Config.Database cfg) <> ""
    /\ (Getenv "PORT" <> "" -> ServerConfig.Port (Config.Server cfg) = Getenv "PORT")
    /\ (Getenv "PORT" = "" -> ServerConfig.Port (Config.Server cfg) = "8080")
    /\ CORSConfig.AllowedOrigins (Config.CORS cfg)
       = [if String.eqb (Getenv "ALLOWED_ORIGINS") "" then "http://localhost:3000"
          else Getenv "ALLOWED_ORIGINS"].
Proof.
  intros Getenv cfg. subst cfg. simpl.
  split; [reflexivity|].
  repeat (split; [apply getEnvOrDefault_nonempty; discriminate|]).
  unfold getEnvOrDefault. repeat apply conj.
  - intros H. apply String.eqb_neq in H. now rewrite H.
  - intros H. now rewrite H.
  - now destruct (String.eqb (Getenv "ALLOWED_ORIGINS") "").
Qed.

Lemma Load_defaults_witness :
  ServerConfig.Port (Config.Server (fst (Load sampleEnv))) = "9090"
  /\ CORSConfig.AllowedOrigins (Config.CORS (fst (Load sampleEnv)))
     = ["https://a.example,https://b.example"].
Proof.
  destruct (Load_defaults sampleEnv) as (_ & _ & _ & _ & _ & _ & _ & Hport & _ & Hcors).
  split; [apply Hport; discriminate|exact Hcors].
Defined.

Lemma getEnvOrDefault_no_default :
  forall Getenv key, getEnvOrDefault Getenv key "" = Getenv key.
Proof.
  intros Getenv key. unfold getEnvOrDefault.
  destruct (String.eqb (Getenv key) "") eqn:E; simpl; [|reflexivity].
  apply String.eqb_eq in E. now rewrite E.
Qed.

(** X6. [GetDatabaseURL] on the loaded configuration is never empty: a
    non-empty DATABASE_URL is returned as it is, whatever the other variables;
    otherwise the result is the key/value string built from host, user,
    password, database name and port (each with its default when unset), ending
    in sslmode=disable. *)
Theorem GetDatabaseURL_of_Load :
  forall Getenv : string -> string,
    let url := GetDatabaseURL (Config.Database (fst (Load Getenv))) in
    url <> ""
    /\ (Getenv "DATABASE_URL" <> "" -> url = Getenv "DATABASE_URL")
    /\ (Getenv "DATABASE_URL" = "" ->
        url = "host=" ++ getEnvOrDefault Getenv "DB_HOST" "localhost"
              ++ " user=" ++ getEnvOrDefault Getenv "DB_USER" "postgres"
              ++ " password=" ++ Getenv "DB_PASSWORD"
              ++ " dbname=" ++ getEnvOrDefault Getenv "DB_NAME" "contactmanagement_db"
              ++ " port=" ++ getEnvOrDefault Getenv "DB_PORT" "5432"
              ++ " sslmode=disable").
Proof.
  intros Getenv url. subst url. unfold GetDatabaseURL, Load.
  cbn [fst Config.Database DatabaseConfig.URL DatabaseConfig.Host DatabaseConfig.User
       DatabaseConfig.Password DatabaseConfig.DBName DatabaseConfig.Port].
  rewrite !getEnvOrDefault_no_default.
  destruct (String.eqb (Getenv "DATABASE_URL") "") eqn:E; cbn [negb].
  - apply String.eqb_eq in E. split; [discriminate|]. split; [intros H; now elim H|].
    reflexivity.
  - apply String.eqb_neq in E. split; [assumption|]. split; [reflexivity|].
    intros H. contradiction.
Qed.

Lemma GetDatabaseURL_of_Load_witness :
  GetDatabaseURL (Config.Database (fst (Load sampleEnv)))
  = "host=localhost user=postgres password=s3cret dbname=contactmanagement_db port=5432 sslmode=disable".
Proof.
  destruct (GetDatabaseURL_of_Load sampleEnv) as (_ & _ & H).
  rewrite (H eq_refl). reflexivity.
Defined.

(** ** package handlers: requests that are refused *)

Lemma parseDigits_digitsOnly :
  forall s acc n, parseDigits s acc = Some n -> digitsOnly s = true.
Proof.
  induction s as [|c s IH]; simpl; intros acc n H; [reflexivity|].
  destruct (isDigit c); [|discriminate]. simpl. now apply IH with (1 := H).
Qed.

Lemma ParseUint_Some :
  forall s n,
    ParseUint s = Some n ->
    s <> "" /\ digitsOnly s = true /\ parseDigits s 0 = Some n /\ (n < 2 ^ 32)%N.
Proof.
  intros s n H. unfold ParseUint in H. destruct s as [|c s]; [discriminate|].
  destruct (parseDigits (String c s) 0) as [m|] eqn:E; [|discriminate].
  destruct (m <? 2 ^ 32)%N eqn:L; [|discriminate]. inversion H; subst.
  split; [discriminate|]. split; [now apply parseDigits_digitsOnly with (1 := E)|].
  split; [reflexivity|]. now apply N.ltb_lt.
Qed.

(** X7. GET, PUT and DELETE /api/contacts/:id refuse an id that is empty,
    contains a byte that is not a decimal digit (a sign, a space, a letter), or
    denotes a number of 2^32 or more: the answer is 400 "Invalid ID format" and
    the repository is not called, whatever the repository; on PUT this comes
    before the body is looked at. *)
Theorem malformed_id_is_refused :
  forall (St : Type) (repo : ContactRepository St) (idParam : string) (st : St),
    idParam = "" \/ digitsOnly idParam = false
    \/ (exists n, parseDigits idParam 0 = Some n /\ (2 ^ 32 <= n)%N) ->
    handlers.GetContact idParam st
    = (mkResponse StatusBadRequest (H_error "Invalid ID format"), st)
    /\ (forall binding,
           handlers.UpdateContact idParam binding st
           = (mkResponse StatusBadRequest (H_error "Invalid ID format"), st))
    /\ handlers.DeleteContact idParam st
       = (mkResponse StatusBadRequest (H_error "Invalid ID format"), st).
Proof.
  intros St repo idParam st H.
  assert (Hnone : ParseUint idParam = None).
  { destruct (ParseUint idParam) as [n|] eqn:E; [|reflexivity]. exfalso.
    apply ParseUint_Some in E as (Hne & Hd & Hp & Hlt).
    destruct H as [H|[H|(m & Hm & Hge)]]; [contradiction|congruence|].
    rewrite Hp in Hm. inversion Hm; subst. lia. }
  unfold handlers.GetContact, handlers.UpdateContact, handlers.DeleteContact.
  rewrite Hnone. repeat split.
Qed.

Lemma malformed_id_is_refused_witness :
  handlers.GetContact "-1" annDB
  = (mkResponse StatusBadRequest (H_error "Invalid ID format"), annDB)
  /\ handlers.DeleteContact "4294967296" annDB
     = (mkResponse StatusBadRequest (H_error "Invalid ID format"), annDB).
Proof.
  split.
  - apply (malformed_id_is_refused DB GormContactRepository "-1" annDB).
    right. left. reflexivity.
  - apply (malformed_id_is_refused DB GormContactRepository "4294967296" annDB).
    right. right. exists 4294967296%N. split; [reflexivity|]. vm_compute. discriminate.
Defined.

(** X8. POST /api/contacts/import calls the repository only for a file whose
    name ends in ".csv" and whose bytes were read and parsed.  A file name
    without that suffix is refused with 400 "File must be a CSV" before the
    file is opened, whatever its contents; in every refused case the answer is
    a 400 or 500 with a plain message and the state is untouched, whatever the
    repository. *)
Theorem import_refuses_before_the_repository :
  forall (St : Type) (repo : ContactRepository St) (st : St),
    (forall Filename contents,
        HasSuffix Filename ".csv" = false ->
        handlers.ImportContacts (FileHeader Filename contents) st
        = (mkResponse StatusBadRequest (H_error "File must be a CSV"), st))
    /\ (forall file,
           (forall Filename rows,
               file = FileHeader Filename (Bytes (Some rows)) ->
               HasSuffix Filename ".csv" = false) ->
           snd (handlers.ImportContacts file st) = st
           /\ plainMessage (fst (handlers.ImportContacts file st))
           /\ (Status (fst (handlers.ImportContacts file st)) = StatusBadRequest
               \/ Status (fst (handlers.ImportContacts file st)) = StatusInternalServerError)).
Proof.
  intros St repo st. split.
  - intros Filename contents H. unfold handlers.ImportContacts. now rewrite H.
  - intros file H. unfold handlers.ImportContacts.
    destruct file as [|Filename contents].
    { simpl. split; [reflexivity|]. split; [eexists; reflexivity|now left]. }
    destruct (HasSuffix Filename ".csv") eqn:Hs; simpl.
    2:{ split; [reflexivity|]. split; [eexists; reflexivity|now left]. }
    destruct contents as [| |[rows|]]; simpl.
    + split; [reflexivity|]. split; [eexists; reflexivity|now right].
    + split; [reflexivity|]. split; [eexists; reflexivity|now right].
    + specialize (H Filename rows eq_refl). congruence.
    + split; [reflexivity|]. split; [eexists; reflexivity|now left].
Qed.

Lemma import_refuses_before_the_repository_witness :
  handlers.ImportContacts (FileHeader "contacts.CSV" (Bytes (Some threeRows))) emptyDB
  = (mkResponse StatusBadRequest (H_error "File must be a CSV"), emptyDB).
Proof.
  apply (proj1 (import_refuses_before_the_repository DB GormContactRepository emptyDB)).
  reflexivity.
Defined.

(** ** package repository and handlers: queries *)

(** X9. GET /api/contacts never writes.  When the store answers, the response
    is 200 with every contact that is not soft-deleted, in table order, each
    with the phones that point to it and are not soft-deleted; when the store
    fails the response is 500 "Failed to fetch contacts". *)
Theorem list_contacts_returns_the_visible_contacts :
  forall db : DB,
    sameData db (snd (handlers.ListContacts db))
    /\ (hd false (faults db) = false ->
        fst (handlers.ListContacts db)
        = mkResponse StatusOK
            (JSON_contacts
               (map (fun r => contactOf r (visiblePhonesOf db (ContactRow.id r)))
                    (filter (fun r => isNull (ContactRow.deleted_at r)) (contacts db)))))
    /\ (hd false (faults db) = true ->
        fst (handlers.ListContacts db)
        = mkResponse StatusInternalServerError (H_error "Failed to fetch contacts")).
Proof.
  intros db. unfold handlers.ListContacts, bind, List. simpl.
  unfold Gorm_List, Find_preload, call, tick.
  destruct (faults db) as [|[|] fs]; simpl.
  - split; [apply sameData_refl|]. split; [reflexivity|discriminate].
  - split; [repeat split|]. split; [discriminate|reflexivity].
  - split; [repeat split|]. split; [reflexivity|discriminate].
Qed.

Lemma list_contacts_returns_the_visible_contacts_witness :
  fst (handlers.ListContacts annBobDB)
  = mkResponse StatusOK
      (JSON_contacts [contactOf annRow [annPhone]; contactOf bobRow [bobPhone]]).
Proof.
  destruct (list_contacts_returns_the_visible_contacts annBobDB) as (_ & H & _).
  rewrite (H eq_refl). reflexivity.
Defined.

(** X10. [CheckDuplicatePhone] never writes.  When the store answers it
    returns true exactly when the number is the primary phone of a visible
    contact or the number of a visible phone row of a contact other than
    [excludeContactID]; with [excludeContactID] zero no contact is excluded.
    With a working store it always answers. *)
Theorem CheckDuplicatePhone_decides :
  forall (phoneNumber : string) (excludeContactID : N) (db : DB),
    let out := CheckDuplicatePhone phoneNumber excludeContactID db in
    sameData db (snd out)
    /\ (forall b, fst out = Ok b ->
                  (b = true <-> exists owner, (excludeContactID <> 0%N -> owner <> excludeContactID)
                                              /\ phoneOf db owner phoneNumber))
    /\ (forall err, fst out = Err err -> err = ErrDriver /\ faults db <> [])
    /\ (faults db = [] -> exists b, out = (Ok b, db)).
Proof.
  intros p ex db out. subst out.
  change (CheckDuplicatePhone p ex db) with (Gorm_CheckDuplicatePhone p ex db).
  destruct (Gorm_CheckDuplicatePhone p ex db) as [r db'] eqn:E. simpl.
  apply CheckDuplicatePhone_spec in E as (Hs & Hq & [(b & -> & Hb)|(-> & Hne)]).
  - split; [assumption|]. split; [intros b' Hb'; inversion Hb'; subst; exact Hb|].
    split; [discriminate|]. intros H. exists b. now rewrite (Hq H).
  - split; [assumption|]. split; [discriminate|].
    split; [intros err H; inversion H; auto|]. intros H. now elim Hne.
Qed.

Lemma CheckDuplicatePhone_decides_witness :
  CheckDuplicatePhone "15551234567" 0 annDB = (Ok true, annDB)
  /\ CheckDuplicatePhone "15551234567" 1 annDB = (Ok false, annDB).
Proof.
  split; [reflexivity|].
  destruct (CheckDuplicatePhone_decides "15551234567" 1 annDB) as (_ & _ & _ & H).
  destruct (H eq_refl) as (b & Hb). rewrite Hb. revert Hb.
  vm_compute. intros Hb. inversion Hb. reflexivity.
Defined.

(** ** POST /api/contacts: what a create writes *)






(** ** Refusals do not write *)

(** X12. A request answered with status 400, 404 or 409 has written nothing:
    both tables and both sequences are as before, for every route and
    whatever the failures of the store. *)
Theorem client_errors_write_nothing :
  forall (rq : Request) (db : DB),
    In (Status (fst (serve rq db))) [StatusBadRequest; StatusNotFound; StatusConflict] ->
    sameData db (snd (serve rq db)).
Proof.
  intros rq db H.
  assert (H201 : ~ In StatusCreated [StatusBadRequest; StatusNotFound; StatusConflict])
    by (simpl; intros [E|[E|[E|[]]]]; discriminate E).
  assert (H200 : ~ In StatusOK [StatusBadRequest; StatusNotFound; StatusConflict])
    by (simpl; intros [E|[E|[E|[]]]]; discriminate E).
  assert (H500 : ~ In StatusInternalServerError [StatusBadRequest; StatusNotFound; StatusConflict])
    by (simpl; intros [E|[E|[E|[]]]]; discriminate E).
  destruct rq as [binding| |idParam|idParam binding|idParam|file]; simpl in *.
  - destruct binding as [msg|req]; [apply sameData_refl|].
    unfold handlers.CreateContact in *. fold (requestContact req) in *.
    destruct (Validate (requestContact req)); [apply sameData_refl|].
    unfold bind in *.
    destruct (FindByEmail (CreateContactRequest.Email req) db) as [r db1] eqn:E1.
    apply First_preload_spec in E1 as (Hs1 & _).
    destruct r; [exact Hs1|].
    destruct (Create (FormatPhoneNumbers (requestContact req)) db1) as [[c e] db2].
    simpl in *. destruct e; simpl in H; contradiction.
  - unfold handlers.ListContacts, bind in *.
    destruct (List db) as [r db1]. destruct r; simpl in H; contradiction.
  - unfold handlers.GetContact in *. destruct (ParseUint idParam); [|apply sameData_refl].
    unfold bind in *. destruct (FindByID n db) as [r db1] eqn:E1.
    apply First_preload_spec in E1 as (Hs1 & _). now destruct r.
  - unfold handlers.UpdateContact in *. destruct (ParseUint idParam); [|apply sameData_refl].
    destruct binding as [msg|req]; [apply sameData_refl|].
    unfold bind in *. destruct (FindByID n db) as [r db1] eqn:E1.
    apply First_preload_spec in E1 as (Hs1 & _).
    destruct r as [existing|]; [|exact Hs1].
    match goal with |- context [Validate ?c] => destruct (Validate c) end; [exact Hs1|].
    destruct (FindByEmail (CreateContactRequest.Email req) db1) as [r2 db2] eqn:E2.
    apply First_preload_spec in E2 as (Hs2 & _).
    match goal with |- context [if ?c then _ else _] => destruct c end;
      [eapply sameData_trans; eauto|].
    match goal with |- context [Update ?c db2] => destruct (Update c db2) as [[c' e] db3] end.
    simpl in *. destruct e; simpl in H; contradiction.
  - unfold handlers.DeleteContact in *. destruct (ParseUint idParam); [|apply sameData_refl].
    unfold bind in *. destruct (FindByID n db) as [r db1] eqn:E1.
    apply First_preload_spec in E1 as (Hs1 & _).
    destruct r as [found|]; [|exact Hs1].
    destruct (Delete n db1) as [e db2]. destruct e; simpl in H; contradiction.
  - unfold handlers.ImportContacts in *. destruct file as [|Filename contents];
      [apply sameData_refl|].
    destruct (negb (HasSuffix Filename ".csv")); [apply sameData_refl|].
    destruct contents as [| |[rows|]]; try apply sameData_refl.
    unfold bind in *. destruct (ImportContacts (contactsToImport rows) db) as [e db1].
    destruct e; simpl in H; contradiction.
Qed.

Lemma client_errors_write_nothing_witness :
  sameData annDB (snd (serve (PUT_contacts_id "1" (Bound annShortPhoneRequest)) annDB)).
Proof.
  apply client_errors_write_nothing. left. reflexivity.
Defined.

(** ** No phone row without its contact *)














(** ** Round trips *)

Lemma filter_none :
  forall (A : Type) (f : A -> bool) (l : list A),
    (forall x, In x l -> f x = false) -> filter f l = [].
Proof.
  intros A f l H. induction l as [|a l IH]; simpl; [reflexivity|].
  rewrite (H a (or_introl eq_refl)). apply IH. intros x Hx. apply H. now right.
Qed.



(** X15. Delete, then fetch.  After a DELETE answered 200 no row of either
    table refers to the id, so that, whatever the store does next, a GET, a
    PUT or a second DELETE of the same id is not answered 200: each is
    answered 404. *)
Theorem deleted_contact_is_gone :
  forall (idParam : string) (id : N) (db : DB),
    ParseUint idParam = Some id ->
    Status (fst (handlers.DeleteContact idParam db)) = StatusOK ->
    let db' := snd (handlers.DeleteContact idParam db) in
    (forall fs,
        let later := mkDB (contacts db') (phones db') (contacts_id_seq db')
                          (phones_id_seq db') fs in
        ~ contactExists later id
        /\ visiblePhonesOf later id = []
        /\ Status (fst (handlers.GetContact idParam later)) = StatusNotFound
        /\ Status (fst (handlers.DeleteContact idParam later)) = StatusNotFound
        /\ forall req,
            Status (fst (handlers.UpdateContact idParam (Bound req) later)) = StatusNotFound).
Proof.
  intros idParam id db Hid Hst db' fs later.
  assert (Hgone : (forall r, In r (contacts db') -> ContactRow.id r <> id)
                  /\ (forall p, In p (phones db') -> Phone.ContactID p <> id)).
  { subst db'. destruct (handlers.DeleteContact idParam db) as [resp dbf] eqn:E. simpl in *.
    unfold handlers.DeleteContact in E. rewrite Hid in E. unfold bind in E.
    destruct (FindByID id db) as [r db1] eqn:E1.
    apply First_preload_spec in E1 as ((Hc & Hp & _) & _).
    destruct r as [found|]; [|inversion E; subst; discriminate].
    destruct (Delete id db1) as [e db2] eqn:E2.
    change (Delete id db1) with (Gorm_Delete id db1) in E2.
    apply Gorm_Delete_spec in E2 as (Hok & _).
    destruct e; inversion E; subst resp dbf; [discriminate|].
    destruct (Hok eq_refl) as (Hcs & Hps). rewrite Hcs, Hps. split.
    - intros x Hx. apply filter_In in Hx as (_ & Hx).
      now apply negb_true_iff, N.eqb_neq in Hx.
    - intros x Hx. apply filter_In in Hx as (_ & Hx).
      now apply negb_true_iff, N.eqb_neq in Hx. }
  destruct Hgone as (Hrows & Hphones).
  assert (Hno : ~ contactExists later id).
  { intros (r & Hin & Hr & _). now apply (Hrows r Hin). }
  assert (Hfind : exists err, fst (FindByID id later) = Err err).
  { destruct (FindByID id later) as [r db2] eqn:E. simpl.
    apply First_preload_spec in E
        as (_ & _ & [(row & _ & Hin & _ & Hw)|[[-> _]|[-> _]]]); eauto.
    apply N.eqb_eq in Hw. elim (Hrows row Hin Hw). }
  destruct Hfind as (err & Hfind).
  split; [exact Hno|]. split.
  { unfold visiblePhonesOf. apply filter_none. intros p Hp. apply andb_false_iff. right.
    apply N.eqb_neq. now apply Hphones. }
  repeat apply conj.
  - unfold handlers.GetContact. rewrite Hid. unfold bind.
    destruct (FindByID id later) as [r db2]. simpl in Hfind. now rewrite Hfind.
  - unfold handlers.DeleteContact. rewrite Hid. unfold bind.
    destruct (FindByID id later) as [r db2]. simpl in Hfind. now rewrite Hfind.
  - intros req. unfold handlers.UpdateContact. rewrite Hid. unfold bind.
    destruct (FindByID id later) as [r db2]. simpl in Hfind. now rewrite Hfind.
Qed.

Lemma deleted_contact_is_gone_witness :
  Status (fst (handlers.GetContact "1" (mkDB [bobRow] [bobPhone] 3 3 []))) = StatusNotFound.
Proof.
  destruct (deleted_contact_is_gone "1" 1%N annBobDB eq_refl eq_refl []) as (_ & _ & H & _).
  exact H.
Defined.

(** ** PUT /api/contacts/:id: the other contacts *)






(** ** FindByEmail *)

Lemma firstById_least :
  forall rows r x, firstById rows = Some r -> In x rows -> (ContactRow.id r <= ContactRow.id x)%N.
Proof.
  induction rows as [|a rows IH]; simpl; intros r x H Hx; [destruct Hx|].
  destruct (firstById rows) as [m|] eqn:F.
  - destruct (ContactRow.id a <=? ContactRow.id m)%N eqn:L; inversion H; subst.
    + apply N.leb_le in L. destruct Hx as [<-|Hx]; [lia|].
      specialize (IH m x eq_refl Hx). lia.
    + apply N.leb_gt in L. destruct Hx as [<-|Hx]; [lia|]. now apply IH.
  - inversion H; subst. apply firstById_None in F. subst rows.
    destruct Hx as [<-|[]]. lia.
Qed.

(** X17. [FindByEmail] never writes.  The contact it returns is a stored
    contact that is not soft-deleted and has exactly the email asked for
    (compared byte by byte), it has the least key among those, and it carries
    the visible phone rows that point to it; it reports "record not found"
    only when no visible contact has the email; and when a visible contact has
    the email and the store answers, it returns a contact. *)
Theorem FindByEmail_finds_the_contact :
  forall (email : string) (db : DB),
    let out := FindByEmail email db in
    sameData db (snd out)
    /\ (forall c, fst out = Ok c ->
          Contact.Email c = email
          /\ Contact.DeletedAt c = None
          /\ (exists row, In row (contacts db)
                          /\ c = contactOf row (visiblePhonesOf db (ContactRow.id row)))
          /\ (forall row, In row (contacts db) -> ContactRow.deleted_at row = None ->
                          ContactRow.email row = email ->
                          (Contact.ID c <= ContactRow.id row)%N))
    /\ (fst out = Err ErrRecordNotFound -> ~ emailExists db email)
    /\ (emailExists db email -> hd false (faults db) = false -> exists c, fst out = Ok c).
Proof.
  intros email db out. subst out.
  set (w := fun r => isNull (ContactRow.deleted_at r) && String.eqb (ContactRow.email r) email).
  assert (Hpure :
            match firstById (filter w (contacts db)) with
            | Some r => In r (contacts db) /\ ContactRow.deleted_at r = None
                        /\ ContactRow.email r = email
                        /\ (forall x, In x (contacts db) -> ContactRow.deleted_at x = None ->
                                      ContactRow.email x = email ->
                                      (ContactRow.id r <= ContactRow.id x)%N)
            | None => ~ emailExists db email
            end).
  { destruct (firstById (filter w (contacts db))) as [r|] eqn:F.
    - pose proof (firstById_In _ _ F) as Hin. apply filter_In in Hin as (Hin & Hw).
      unfold w in Hw. apply andb_prop in Hw as [Hn He].
      apply isNull_true in Hn. apply String.eqb_eq in He.
      repeat (split; [assumption|]). intros x Hx Hxn Hxe.
      apply (firstById_least _ _ _ F). apply filter_In. split; [assumption|].
      unfold w. rewrite Hxn, Hxe, String.eqb_refl. reflexivity.
    - apply firstById_None in F. intros (x & Hx & Hxe & Hxn).
      assert (Hf : In x (filter w (contacts db))).
      { apply filter_In. split; [assumption|]. unfold w.
        rewrite Hxn, Hxe, String.eqb_refl. reflexivity. }
      rewrite F in Hf. destruct Hf. }
  change (FindByEmail email db) with (Gorm_FindByEmail email db).
  unfold Gorm_FindByEmail, First_preload, call, tick.
  destruct (faults db) as [|[|] fs]; simpl; fold w;
    destruct (firstById (filter w (contacts db))) as [r|]; simpl;
    (split; [repeat split|]);
    (split; [intros c Hc; inversion Hc; subst c; clear Hc|]);
    try (split; [intros Habs; try discriminate Habs; try exact Hpure|]);
    try (intros Hex Hhd; try discriminate Hhd; try (now elim Hpure); eauto).
  all: destruct Hpure as (Hin & Hn & He & Hmin); simpl;
    (split; [assumption|]); (split; [assumption|]); (split; [|assumption]);
    exists r; (split; [assumption|reflexivity]).
Qed.

Lemma FindByEmail_finds_the_contact_witness :
  fst (FindByEmail "bob@example.com" annBobDB) = Ok (contactOf bobRow [bobPhone]).
Proof.
  destruct (FindByEmail_finds_the_contact "bob@example.com" annBobDB) as (_ & _ & _ & H).
  destruct H as (c & Hc).
  - exists bobRow. repeat split. right. now left.
  - reflexivity.
  - rewrite Hc. revert Hc. vm_compute. intros Hc. now inversion Hc.
Defined.
